(** * go-oci8: connection-string parsing, connection establishment,
      transaction control and placeholder rewriting (oci8.go)

    A shallow embedding of [src/oci8.go].  Go strings are byte strings
    ([string]); C integers are [Z] with the conversions written out; the
    native OCI layer is a family of functions on an abstract world, and every
    native call made by the driver is recorded in a trace. *)

From Stdlib Require Import ZArith String Ascii List Lia DecimalString.
From stdpp Require Import gmap strings list fin_maps.
Import ListNotations.

Local Open Scope Z_scope.
Local Open Scope string_scope.

(** ** Go runtime values used by oci8.go *)

Module Go.

(** Go's [int] on the 64-bit targets cgo supports: two's complement. *)
Definition wrap_int (z : Z) : Z := (z + 2 ^ 63) mod 2 ^ 64 - 2 ^ 63.

(** [C.ub4(x)] and [uint32(x)]: truncation to 32 bits. *)
Definition ub4 (z : Z) : Z := z mod 2 ^ 32.

(** [len(s)]: the number of bytes of [s]. *)
Definition len (s : string) : Z := Z.of_nat (String.length s).

(** [strconv.Itoa]: decimal digits, a leading minus sign when negative. *)
Definition Itoa (n : Z) : string := NilZero.string_of_int (Z.to_int n).

(** The three ways a Go call with an [error] result can end: a value with
    a nil error, a non-nil error with a nil value, or a run-time panic
    (index out of range). *)
Inductive result (A : Type) : Type :=
| Ok (a : A)
| Err (e : string)
| Panic.
Arguments Ok {A} a.
Arguments Err {A} e.
Arguments Panic {A}.

Definition is_ok {A} (r : result A) : bool :=
  match r with Ok _ => true | _ => false end.

End Go.
Export Go.

(** ** Placeholder rewriting (oci8.go, lines 397-404) *)

Module Placeholders.

(** The part of Go's [regexp] that [placeholders] needs: a pattern that
    matches one literal byte. *)
Inductive Regexp : Type :=
| ReLiteral (c : ascii).

Definition matches (re : Regexp) (c : ascii) : bool :=
  match re with ReLiteral d => Ascii.eqb c d end.

(** Modelled from the spec: the package-level pattern [phre] is declared
    outside oci8.go.  The comment above [placeholders] ("converts ?
    characters to :1, :2, ... :n") and the spec's example fix it as the
    literal question mark. *)
Definition phre : Regexp := ReLiteral "?"%char.

(** The method [ReplaceAllStringFunc] of a compiled pattern: scan [src]
    left to right, copy the bytes that do not match, and replace every
    match by what [repl] returns for it.  [repl] is a closure over
    mutable state, threaded here as [st]. *)
Fixpoint ReplaceAllStringFunc {S : Type} (re : Regexp) (src : string)
    (repl : string -> S -> string * S) (st : S) : string * S :=
  match src with
  | EmptyString => (EmptyString, st)
  | String c rest =>
      if matches re c then
        let '(r, st1) := repl (String c EmptyString) st in
        let '(out, st2) := ReplaceAllStringFunc re rest repl st1 in
        (r ++ out, st2)
      else
        let '(out, st1) := ReplaceAllStringFunc re rest repl st in
        (String c out, st1)
  end.

(** The closure [func(string) string { n++; return ":" + strconv.Itoa(n) }]. *)
Definition next_marker (_ : string) (n : Z) : string * Z :=
  let n1 := wrap_int (n + 1) in
  (":" ++ Itoa n1, n1).

Definition placeholders (sql : string) : string :=
  fst (ReplaceAllStringFunc phre sql next_marker 0).

(** Does [s] still contain a positional marker? *)
Fixpoint has_marker (s : string) : bool :=
  match s with
  | EmptyString => false
  | String c rest => matches phre c || has_marker rest
  end.

(** What the specification describes, in its own words: the pieces of
    text between the markers are kept, and the [i]-th marker (counting
    from [k + 1]) becomes a colon followed by the decimal number. *)
Fixpoint with_markers (segs : list string) : string :=
  match segs with
  | [] => EmptyString
  | seg :: rest => "?" ++ seg ++ with_markers rest
  end.

Fixpoint with_numbers (k : nat) (segs : list string) : string :=
  match segs with
  | [] => EmptyString
  | seg :: rest =>
      ":" ++ Itoa (Z.of_nat (S k)) ++ seg ++ with_numbers (S k) rest
  end.

End Placeholders.

(** ** Constants of the native interface

    The values cgo takes from Oracle's [oci.h]. *)

Module OCI.

Definition OCI_SUCCESS : Z := 0.
Definition OCI_SUCCESS_WITH_INFO : Z := 1.

Definition OCI_DEFAULT : Z := 0.
Definition OCI_THREADED : Z := 1.

Definition OCI_SYSDBA : Z := 2.
Definition OCI_SYSOPER : Z := 4.
Definition OCI_SYSASM : Z := 32768.

Definition OCI_TRANS_READONLY : Z := 256.
Definition OCI_TRANS_READWRITE : Z := 512.
Definition OCI_TRANS_SERIALIZABLE : Z := 1024.

Definition OCI_HTYPE_ENV : Z := 1.
Definition OCI_HTYPE_ERROR : Z := 2.
Definition OCI_HTYPE_SVCCTX : Z := 3.
Definition OCI_HTYPE_SERVER : Z := 8.
Definition OCI_HTYPE_SESSION : Z := 9.

Definition OCI_ATTR_SERVER : Z := 6.
Definition OCI_ATTR_SESSION : Z := 7.
Definition OCI_ATTR_USERNAME : Z := 22.
Definition OCI_ATTR_PASSWORD : Z := 23.

Definition OCI_CRED_RDBMS : Z := 1.
Definition OCI_CRED_EXT : Z := 2.

End OCI.
Export OCI.

(** ** What oci8.go takes from the rest of the package and from Go *)

(** A [*time.Location], identified by its name. *)
Record time_Location : Type := { zoneName : string }.

(** [time.Local]. *)
Definition time_Local : time_Location := {| zoneName := "Local" |}.

(** The decoding modes of [unescape]; oci8.go names [encodeHost] only. *)
Inductive encoding : Type :=
| encodeHost
| encodeUserPassword
| encodeQueryComponent.

(** The collaborators of [ParseDSN] and [Open] that are declared outside
    oci8.go: the URL helpers of the package, the protocol switch, and the
    time-zone database behind [time.LoadLocation].  [ParseQuery] returns
    both a mapping and an error, as in Go.  [rangeOrder] is the order in
    which a [for k, v := range qp] statement visits the mapping: Go leaves
    it unspecified, so it is any enumeration of the entries. *)
Class Package : Type := {
  splitRight : string -> string -> string * string;
  parseAuthority : string -> result (string * string);
  unescape : string -> encoding -> result string;
  ParseQuery : string -> gmap string (list string) * option string;
  time_LoadLocation : string -> result time_Location;
  useOCISessionBegin : bool;
  rangeOrder : gmap string (list string) -> list (string * list string);
  rangeOrder_perm : forall m, rangeOrder m ≡ₚ map_to_list m
}.

(** The same package, with a [ParseQuery] that never reports its error. *)
Definition without_query_error (P : Package) : Package :=
  Build_Package splitRight parseAuthority unescape
    (fun query => (fst (ParseQuery query), None))
    time_LoadLocation useOCISessionBegin rangeOrder rangeOrder_perm.

(** ** The configuration object *)

Module DSN.

Record t : Type := mk {
  Username : string;
  Password : string;
  Connect : string;
  Location : time_Location;
  transactionMode : Z;
  enableQMPlaceholders : bool;
  prefetchRows : Z;
  prefetchMemory : Z;
  operationMode : Z;
  externalauthentication : bool
}.

(** [&DSN{Location: loc}]: every other field has Go's zero value. *)
Definition new (loc : time_Location) : t :=
  mk "" "" "" loc 0 false 0 0 0 false.

Definition set_user_pass (u p : string) (d : t) : t :=
  mk u p (Connect d) (Location d) (transactionMode d)
     (enableQMPlaceholders d) (prefetchRows d) (prefetchMemory d)
     (operationMode d) (externalauthentication d).

Definition set_Connect (c : string) (d : t) : t :=
  mk (Username d) (Password d) c (Location d) (transactionMode d)
     (enableQMPlaceholders d) (prefetchRows d) (prefetchMemory d)
     (operationMode d) (externalauthentication d).

Definition set_Location (l : time_Location) (d : t) : t :=
  mk (Username d) (Password d) (Connect d) l (transactionMode d)
     (enableQMPlaceholders d) (prefetchRows d) (prefetchMemory d)
     (operationMode d) (externalauthentication d).

Definition set_transactionMode (m : Z) (d : t) : t :=
  mk (Username d) (Password d) (Connect d) (Location d) m
     (enableQMPlaceholders d) (prefetchRows d) (prefetchMemory d)
     (operationMode d) (externalauthentication d).

Definition set_enableQMPlaceholders (b : bool) (d : t) : t :=
  mk (Username d) (Password d) (Connect d) (Location d) (transactionMode d)
     b (prefetchRows d) (prefetchMemory d)
     (operationMode d) (externalauthentication d).

Definition set_prefetchRows (n : Z) (d : t) : t :=
  mk (Username d) (Password d) (Connect d) (Location d) (transactionMode d)
     (enableQMPlaceholders d) n (prefetchMemory d)
     (operationMode d) (externalauthentication d).

Definition set_prefetchMemory (n : Z) (d : t) : t :=
  mk (Username d) (Password d) (Connect d) (Location d) (transactionMode d)
     (enableQMPlaceholders d) (prefetchRows d) n
     (operationMode d) (externalauthentication d).

Definition set_operationMode (m : Z) (d : t) : t :=
  mk (Username d) (Password d) (Connect d) (Location d) (transactionMode d)
     (enableQMPlaceholders d) (prefetchRows d) (prefetchMemory d)
     m (externalauthentication d).

Definition set_externalauthentication (b : bool) (d : t) : t :=
  mk (Username d) (Password d) (Connect d) (Location d) (transactionMode d)
     (enableQMPlaceholders d) (prefetchRows d) (prefetchMemory d)
     (operationMode d) b.

End DSN.

(** ** ParseDSN (oci8.go, lines 30-125) *)

Module Parse.

(** [strconv.ParseUint(s, 10, 32)]: a non-empty run of decimal digits
    whose value fits 32 bits; no sign, no underscore. *)
Definition digit_value (c : ascii) : option Z :=
  let n := Z.of_N (N_of_ascii c) in
  if ((48 <=? n)%Z && (n <=? 57)%Z)%bool then Some (n - 48)%Z else None.

Fixpoint digits_value (acc : Z) (s : string) : option Z :=
  match s with
  | EmptyString => Some acc
  | String c rest =>
      match digit_value c with
      | Some d => digits_value (10 * acc + d) rest
      | None => None
      end
  end.

Definition ParseUint32 (s : string) : result Z :=
  match s with
  | EmptyString => Err "strconv.ParseUint: invalid syntax"
  | _ =>
      match digits_value 0 s with
      | None => Err "strconv.ParseUint: invalid syntax"
      | Some z =>
          if (z <? 2 ^ 32)%Z then Ok z
          else Err "strconv.ParseUint: value out of range"
      end
  end.

(** [v[0]] on a slice: a run-time panic when the slice is empty. *)
Definition index0 (v : list string) : result string :=
  match v with
  | [] => Panic
  | v0 :: _ => Ok v0
  end.

#[global] Instance result_ret : MRet result := @Ok.

#[global] Instance result_bind : MBind result :=
  fun A B (k : A -> result B) (r : result A) =>
    match r with
    | Ok a => k a
    | Err e => Err e
    | Panic => Panic
    end.

Section WithPackage.
Context {pkg : Package}.

(** One iteration of the loop over the query parameters: the body of
    [switch k]. *)
Definition applyParam (k : string) (v : list string) (dsn : DSN.t)
  : result DSN.t :=
  if String.eqb k "loc" then
    match v with
    | [] => Ok dsn
    | v0 :: _ =>
        match time_LoadLocation v0 with
        | Ok l => Ok (DSN.set_Location l dsn)
        | Err e => Err ("Invalid loc: " ++ v0 ++ ": " ++ e)
        | Panic => Panic
        end
    end
  else if String.eqb k "isolation" then
    v0 ← index0 v;
    if String.eqb v0 "READONLY" then
      Ok (DSN.set_transactionMode OCI_TRANS_READONLY dsn)
    else if String.eqb v0 "SERIALIZABLE" then
      Ok (DSN.set_transactionMode OCI_TRANS_SERIALIZABLE dsn)
    else if String.eqb v0 "DEFAULT" then
      Ok (DSN.set_transactionMode OCI_TRANS_READWRITE dsn)
    else Err ("Invalid isolation: " ++ v0)
  else if String.eqb k "questionph" then
    v0 ← index0 v;
    if String.eqb v0 "YES" || String.eqb v0 "TRUE" then
      Ok (DSN.set_enableQMPlaceholders true dsn)
    else if String.eqb v0 "NO" || String.eqb v0 "FALSE" then
      Ok (DSN.set_enableQMPlaceholders false dsn)
    else Err ("Invalid questionpm: " ++ v0)
  else if String.eqb k "prefetch_rows" then
    v0 ← index0 v;
    match ParseUint32 v0 with
    | Ok z => Ok (DSN.set_prefetchRows (ub4 z) dsn)
    | _ => Err ("invalid prefetch_rows: " ++ v0)
    end
  else if String.eqb k "prefetch_memory" then
    v0 ← index0 v;
    match ParseUint32 v0 with
    | Ok z => Ok (DSN.set_prefetchMemory (ub4 z) dsn)
    | _ => Err ("invalid prefetch_memory: " ++ v0)
    end
  else if String.eqb k "as" then
    v0 ← index0 v;
    if String.eqb v0 "SYSDBA" || String.eqb v0 "sysdba" then
      Ok (DSN.set_operationMode OCI_SYSDBA dsn)
    else if String.eqb v0 "SYSASM" || String.eqb v0 "sysasm" then
      Ok (DSN.set_operationMode OCI_SYSASM dsn)
    else if String.eqb v0 "SYSOPER" || String.eqb v0 "sysoper" then
      Ok (DSN.set_operationMode OCI_SYSOPER dsn)
    else Err ("Invalid as: " ++ v0)
  else Ok dsn.

(** [for k, v := range qp { ... }], over the entries in the order the
    statement visits them; a [return] inside the body ends the loop. *)
Fixpoint rangeParams (entries : list (string * list string))
    (dsn : DSN.t) : result DSN.t :=
  match entries with
  | [] => Ok dsn
  | (k, v) :: rest =>
      dsn1 ← applyParam k v dsn;
      rangeParams rest dsn1
  end.

Definition prefix : string := "oracle://".

(** [dsnString[len(prefix):]] after [strings.HasPrefix]. *)
Definition stripPrefix (dsnString : string) : string :=
  if String.prefix prefix dsnString
  then String.substring (String.length prefix)
         (String.length dsnString - String.length prefix)%nat dsnString
  else dsnString.

(** The authority segment and the text after it (line 44). *)
Definition dsnAuthority (dsnString : string) : string * string :=
  splitRight (stripPrefix dsnString) "@".

(** The host-spec before decoding and the query string (line 52). *)
Definition dsnHostParams (dsnString : string) : string * string :=
  splitRight (snd (dsnAuthority dsnString)) "?".

(** The mapping and the error that [ParseQuery] returns (line 65). *)
Definition dsnQuery (dsnString : string)
  : gmap string (list string) * option string :=
  ParseQuery (snd (dsnHostParams dsnString)).

(** Lines 121-123. *)
Definition markExternal (dsn : DSN.t) : DSN.t :=
  if (wrap_int (wrap_int (len (DSN.Username dsn) + len (DSN.Password dsn))
               + len (DSN.Connect dsn)) =? 0)%Z
  then DSN.set_externalauthentication true dsn
  else dsn.

Definition ParseDSN (dsnString : string) : result DSN.t :=
  let dsn := DSN.new time_Local in
  if String.eqb dsnString "" then Err "empty dsn" else
  let '(authority, _) := dsnAuthority dsnString in
  dsn ← (if String.eqb authority "" then Ok dsn
         else up ← parseAuthority authority;
              Ok (DSN.set_user_pass (fst up) (snd up) dsn));
  let '(host, _) := dsnHostParams dsnString in
  host ← unescape host encodeHost;
  let dsn := DSN.set_Connect host dsn in
  let dsn := DSN.set_prefetchRows 10 dsn in
  let dsn := DSN.set_prefetchMemory 0 dsn in
  let dsn := DSN.set_operationMode OCI_DEFAULT dsn in
  let '(qp, _) := dsnQuery dsnString in
  dsn ← rangeParams (rangeOrder qp) dsn;
  Ok (markExternal dsn).

End WithPackage.

End Parse.

(** ** The connection object and the native layer *)

(** A [*log.Logger]. *)
Inductive Logger : Type :=
| discardLogger
| userLogger (name : string).

Record OCI8DriverStruct : Type := { driverLogger : option Logger }.

Module Conn.

(** [OCI8Conn].  Handles are addresses; 0 is the nil pointer.  [location]
    is nil until [Open] copies it from the configuration. *)
Record t : Type := mk {
  env : Z;
  errHandle : Z;
  srv : Z;
  svc : Z;
  usrSession : Z;
  operationMode : Z;
  logger : option Logger;
  location : option time_Location;
  transactionMode : Z;
  prefetchRows : Z;
  prefetchMemory : Z;
  enableQMPlaceholders : bool;
  inTransaction : bool
}.

(** [OCI8Conn{operationMode: m, logger: l}]. *)
Definition new (m : Z) (l : option Logger) : t :=
  mk 0 0 0 0 0 m l None 0 0 0 false false.

Definition set_logger (l : option Logger) (c : t) : t :=
  mk (env c) (errHandle c) (srv c) (svc c) (usrSession c) (operationMode c)
     l (location c) (transactionMode c) (prefetchRows c)
     (prefetchMemory c) (enableQMPlaceholders c) (inTransaction c).

Definition set_env (p : Z) (c : t) : t :=
  mk p (errHandle c) (srv c) (svc c) (usrSession c) (operationMode c)
     (logger c) (location c) (transactionMode c) (prefetchRows c)
     (prefetchMemory c) (enableQMPlaceholders c) (inTransaction c).

Definition set_errHandle (p : Z) (c : t) : t :=
  mk (env c) p (srv c) (svc c) (usrSession c) (operationMode c)
     (logger c) (location c) (transactionMode c) (prefetchRows c)
     (prefetchMemory c) (enableQMPlaceholders c) (inTransaction c).

Definition set_srv (p : Z) (c : t) : t :=
  mk (env c) (errHandle c) p (svc c) (usrSession c) (operationMode c)
     (logger c) (location c) (transactionMode c) (prefetchRows c)
     (prefetchMemory c) (enableQMPlaceholders c) (inTransaction c).

Definition set_svc (p : Z) (c : t) : t :=
  mk (env c) (errHandle c) (srv c) p (usrSession c) (operationMode c)
     (logger c) (location c) (transactionMode c) (prefetchRows c)
     (prefetchMemory c) (enableQMPlaceholders c) (inTransaction c).

Definition set_usrSession (p : Z) (c : t) : t :=
  mk (env c) (errHandle c) (srv c) (svc c) p (operationMode c)
     (logger c) (location c) (transactionMode c) (prefetchRows c)
     (prefetchMemory c) (enableQMPlaceholders c) (inTransaction c).

Definition set_inTransaction (b : bool) (c : t) : t :=
  mk (env c) (errHandle c) (srv c) (svc c) (usrSession c) (operationMode c)
     (logger c) (location c) (transactionMode c) (prefetchRows c)
     (prefetchMemory c) (enableQMPlaceholders c) b.

(** Lines 371-375: the settings copied from the configuration. *)
Definition copySettings (d : DSN.t) (c : t) : t :=
  mk (env c) (errHandle c) (srv c) (svc c) (usrSession c) (operationMode c)
     (logger c) (Some (DSN.Location d)) (DSN.transactionMode d)
     (DSN.prefetchRows d) (DSN.prefetchMemory d)
     (DSN.enableQMPlaceholders d) (inTransaction c).

End Conn.

(** [OCI8Tx]: a reference to the owning connection. *)
Record OCI8Tx : Type := { tx_conn : Z }.

Module Native.

(** The struct that the [Wrap...] helpers of oci8.go.h return. *)
Record ret : Type := { rv : Z; ptr : Z }.

(** The value argument of [OCIAttrSet]: a handle or a C string. *)
Inductive cvalue : Type :=
| VHandle (p : Z)
| VText (s : string).

(** The native calls of oci8.go, as functions on the state of the native
    library.  [getError] is the method of [OCI8Conn], declared outside
    oci8.go, that reads the diagnostic for a status through the error
    handle. *)
Class Layer (World : Type) : Type := {
  WrapOCIEnvCreate : Z -> Z -> World -> ret * World;
  WrapOCIHandleAlloc : Z -> Z -> Z -> World -> ret * World;
  OCIHandleFree : Z -> Z -> World -> Z * World;
  WrapOCIServerAttach :
    Z -> Z -> option string -> Z -> Z -> World -> Z * World;
  OCIAttrSet : Z -> Z -> cvalue -> Z -> Z -> Z -> World -> Z * World;
  WrapOCISessionBegin : Z -> Z -> Z -> Z -> Z -> World -> Z * World;
  WrapOCILogon :
    Z -> Z -> string -> Z -> string -> Z -> string -> Z -> World
    -> ret * World;
  OCITransCommit : Z -> Z -> Z -> World -> Z * World;
  OCITransRollback : Z -> Z -> Z -> World -> Z * World;
  getError : Conn.t -> Z -> World -> string * World
}.

(** What the driver does to the outside, in the order it does it: the
    native calls with their arguments and results, and the writes to the
    in-transaction flag of a shared connection object. *)
Inductive event : Type :=
| EnvCreate (mode xtramem : Z) (r : ret)
| HandleAlloc (parent htype xtramem : Z) (r : ret)
| HandleFree (h htype : Z)
| ServerAttach (srvh errh : Z) (dblink : option string) (dblen mode : Z)
| AttrSet (target ttype : Z) (value : cvalue) (size attr errh : Z) (st : Z)
| SessionBegin (svch errh usrh cred mode : Z)
| Logon (envh errh : Z) (user : string) (ulen : Z) (pass : string)
    (plen : Z) (host : string) (hlen : Z) (r : ret)
| TransCommit (svch errh flags : Z) (st : Z)
| TransRollback (svch errh flags : Z) (st : Z)
| GetError (st : Z) (msg : string)
| SetInTransaction (conn : Z) (b : bool).

(** The state a driver call runs in: the native library, the connection
    objects on the Go heap, and the trace so far. *)
Record state (World : Type) : Type := mkState {
  world : World;
  heap : gmap Z Conn.t;
  trace : list event
}.
Arguments mkState {World} _ _ _.
Arguments world {World} _.
Arguments heap {World} _.
Arguments trace {World} _.

Definition M (World A : Type) : Type := state World -> A * state World.

#[global] Instance M_ret {World} : MRet (M World) :=
  fun A (a : A) st => (a, st).

#[global] Instance M_bind {World} : MBind (M World) :=
  fun A B (k : A -> M World B) (m : M World A) st =>
    let '(a, st1) := m st in k a st1.

(** A native call: run it on the library state and append its record. *)
Definition call {World A} (f : World -> A * World) (ev : A -> event)
  : M World A :=
  fun st =>
    let '(a, w) := f (world st) in
    (a, mkState w (heap st) (trace st ++ [ev a])).

Section WithLayer.
Context {World : Type} {native : Layer World}.

Definition C_WrapOCIEnvCreate (mode xtramem : Z) : M World ret :=
  call (WrapOCIEnvCreate mode xtramem) (EnvCreate mode xtramem).

Definition C_WrapOCIHandleAlloc (parent htype xtramem : Z)
  : M World ret :=
  call (WrapOCIHandleAlloc parent htype xtramem)
       (HandleAlloc parent htype xtramem).

Definition C_OCIHandleFree (h htype : Z) : M World Z :=
  call (OCIHandleFree h htype) (fun _ => HandleFree h htype).

Definition C_WrapOCIServerAttach (srvh errh : Z) (dblink : option string)
    (dblen mode : Z) : M World Z :=
  call (WrapOCIServerAttach srvh errh dblink dblen mode)
       (fun _ => ServerAttach srvh errh dblink dblen mode).

Definition C_OCIAttrSet (target ttype : Z) (value : cvalue)
    (size attr errh : Z) : M World Z :=
  call (OCIAttrSet target ttype value size attr errh)
       (AttrSet target ttype value size attr errh).

Definition C_WrapOCISessionBegin (svch errh usrh cred mode : Z)
  : M World Z :=
  call (WrapOCISessionBegin svch errh usrh cred mode)
       (fun _ => SessionBegin svch errh usrh cred mode).

Definition C_WrapOCILogon (envh errh : Z) (user : string) (ulen : Z)
    (pass : string) (plen : Z) (host : string) (hlen : Z)
  : M World ret :=
  call (WrapOCILogon envh errh user ulen pass plen host hlen)
       (Logon envh errh user ulen pass plen host hlen).

Definition C_OCITransCommit (svch errh flags : Z) : M World Z :=
  call (OCITransCommit svch errh flags) (TransCommit svch errh flags).

Definition C_OCITransRollback (svch errh flags : Z) : M World Z :=
  call (OCITransRollback svch errh flags) (TransRollback svch errh flags).

Definition conn_getError (c : Conn.t) (st : Z) : M World string :=
  call (getError c st) (GetError st).

End WithLayer.

End Native.
Export Native.

(** ** Open (oci8.go, lines 152-380) *)

Module Driver.

Section WithEnvironment.
Context {pkg : Package} {World : Type} {native : Layer World}.

Definition failed (st : Z) : bool := negb (st =? OCI_SUCCESS)%Z.

Definition failed_info (st : Z) : bool :=
  (negb (st =? OCI_SUCCESS)%Z && negb (st =? OCI_SUCCESS_WITH_INFO)%Z)%bool.

(** Lines 199-347, the block under [if useOCISessionBegin].  The C
    copies [phost], [puser] and [ppass] of the three strings are passed
    by value; their deferred [C.free] runs on every exit and involves
    no handle. *)
Definition openSession (dsn : DSN.t) (conn : Conn.t)
  : M World (result Conn.t) :=
  r ← C_WrapOCIHandleAlloc (Conn.env conn) OCI_HTYPE_SERVER 0;
  if failed (rv r) then
    C_OCIHandleFree (Conn.errHandle conn) OCI_HTYPE_ERROR;;
    C_OCIHandleFree (Conn.env conn) OCI_HTYPE_ENV;;
    mret (Err "cant allocate server handle")
  else
  let conn := Conn.set_srv (ptr r) conn in
  (if DSN.externalauthentication dsn
   then C_WrapOCIServerAttach (Conn.srv conn) (Conn.errHandle conn)
          None 0 OCI_DEFAULT
   else C_WrapOCIServerAttach (Conn.srv conn) (Conn.errHandle conn)
          (Some (DSN.Connect dsn)) (ub4 (len (DSN.Connect dsn)))
          OCI_DEFAULT);;
  r ← C_WrapOCIHandleAlloc (Conn.env conn) OCI_HTYPE_SVCCTX 0;
  if failed (rv r) then
    C_OCIHandleFree (Conn.srv conn) OCI_HTYPE_SERVER;;
    C_OCIHandleFree (Conn.errHandle conn) OCI_HTYPE_ERROR;;
    C_OCIHandleFree (Conn.env conn) OCI_HTYPE_ENV;;
    mret (Err "cant allocate service handle")
  else
  let conn := Conn.set_svc (ptr r) conn in
  st ← C_OCIAttrSet (Conn.svc conn) OCI_HTYPE_SVCCTX
         (VHandle (Conn.srv conn)) 0 OCI_ATTR_SERVER (Conn.errHandle conn);
  if failed st then
    e ← conn_getError conn st;
    C_OCIHandleFree (Conn.svc conn) OCI_HTYPE_SVCCTX;;
    C_OCIHandleFree (Conn.srv conn) OCI_HTYPE_SERVER;;
    C_OCIHandleFree (Conn.errHandle conn) OCI_HTYPE_ERROR;;
    C_OCIHandleFree (Conn.env conn) OCI_HTYPE_ENV;;
    mret (Err e)
  else
  r ← C_WrapOCIHandleAlloc (Conn.env conn) OCI_HTYPE_SESSION 0;
  if failed (rv r) then
    C_OCIHandleFree (Conn.svc conn) OCI_HTYPE_SVCCTX;;
    C_OCIHandleFree (Conn.srv conn) OCI_HTYPE_SERVER;;
    C_OCIHandleFree (Conn.errHandle conn) OCI_HTYPE_ERROR;;
    C_OCIHandleFree (Conn.env conn) OCI_HTYPE_ENV;;
    mret (Err "cant allocate user session handle")
  else
  let conn := Conn.set_usrSession (ptr r) conn in
  authenticated ←
    (if negb (DSN.externalauthentication dsn) then
       st ← C_OCIAttrSet (Conn.usrSession conn) OCI_HTYPE_SESSION
              (VText (DSN.Username dsn)) (ub4 (len (DSN.Username dsn)))
              OCI_ATTR_USERNAME (Conn.errHandle conn);
       if failed st then
         e ← conn_getError conn st;
         C_OCIHandleFree (Conn.usrSession conn) OCI_HTYPE_SESSION;;
         C_OCIHandleFree (Conn.svc conn) OCI_HTYPE_SVCCTX;;
         C_OCIHandleFree (Conn.srv conn) OCI_HTYPE_SERVER;;
         C_OCIHandleFree (Conn.errHandle conn) OCI_HTYPE_ERROR;;
         C_OCIHandleFree (Conn.env conn) OCI_HTYPE_ENV;;
         mret (Err e)
       else
       st ← C_OCIAttrSet (Conn.usrSession conn) OCI_HTYPE_SESSION
              (VText (DSN.Password dsn)) (ub4 (len (DSN.Password dsn)))
              OCI_ATTR_PASSWORD (Conn.errHandle conn);
       if failed st then
         e ← conn_getError conn st;
         C_OCIHandleFree (Conn.usrSession conn) OCI_HTYPE_SESSION;;
         C_OCIHandleFree (Conn.svc conn) OCI_HTYPE_SVCCTX;;
         C_OCIHandleFree (Conn.srv conn) OCI_HTYPE_SERVER;;
         C_OCIHandleFree (Conn.errHandle conn) OCI_HTYPE_ERROR;;
         C_OCIHandleFree (Conn.env conn) OCI_HTYPE_ENV;;
         mret (Err e)
       else
       C_WrapOCISessionBegin (Conn.svc conn) (Conn.errHandle conn)
         (Conn.usrSession conn) OCI_CRED_RDBMS (Conn.operationMode conn);;
       mret (Ok tt)
     else
       C_WrapOCISessionBegin (Conn.svc conn) (Conn.errHandle conn)
         (Conn.usrSession conn) OCI_CRED_EXT (Conn.operationMode conn);;
       mret (Ok tt));
  match authenticated with
  | Err e => mret (Err e)
  | Panic => mret Panic
  | Ok _ =>
      st ← C_OCIAttrSet (Conn.svc conn) OCI_HTYPE_SVCCTX
             (VHandle (Conn.usrSession conn)) 0 OCI_ATTR_SESSION
             (Conn.errHandle conn);
      if failed st then
        e ← conn_getError conn st;
        C_OCIHandleFree (Conn.usrSession conn) OCI_HTYPE_SESSION;;
        C_OCIHandleFree (Conn.svc conn) OCI_HTYPE_SVCCTX;;
        C_OCIHandleFree (Conn.srv conn) OCI_HTYPE_SERVER;;
        C_OCIHandleFree (Conn.errHandle conn) OCI_HTYPE_ERROR;;
        C_OCIHandleFree (Conn.env conn) OCI_HTYPE_ENV;;
        mret (Err e)
      else mret (Ok conn)
  end.

(** Lines 350-367, the [else] block: the combined logon. *)
Definition openLogon (dsn : DSN.t) (conn : Conn.t)
  : M World (result Conn.t) :=
  r ← C_WrapOCILogon (Conn.env conn) (Conn.errHandle conn)
        (DSN.Username dsn) (ub4 (len (DSN.Username dsn)))
        (DSN.Password dsn) (ub4 (len (DSN.Password dsn)))
        (DSN.Connect dsn) (ub4 (len (DSN.Connect dsn)));
  if failed_info (rv r) then
    e ← conn_getError conn (rv r);
    C_OCIHandleFree (Conn.errHandle conn) OCI_HTYPE_ERROR;;
    C_OCIHandleFree (Conn.env conn) OCI_HTYPE_ENV;;
    mret (Err e)
  else mret (Ok (Conn.set_svc (ptr r) conn)).

Definition Open (oci8Driver : OCI8DriverStruct) (dsnString : string)
  : M World (result Conn.t) :=
  match Parse.ParseDSN dsnString with
  | Err e => mret (Err e)
  | Panic => mret Panic
  | Ok dsn =>
      let conn :=
        Conn.new (DSN.operationMode dsn) (driverLogger oci8Driver) in
      let conn :=
        match Conn.logger conn with
        | None => Conn.set_logger (Some discardLogger) conn
        | Some _ => conn
        end in
      r ← C_WrapOCIEnvCreate (Z.lor OCI_DEFAULT OCI_THREADED) 0;
      if failed_info (rv r) then mret (Err "can't OCIEnvCreate") else
      let conn := Conn.set_env (ptr r) conn in
      r ← C_WrapOCIHandleAlloc (Conn.env conn) OCI_HTYPE_ERROR 0;
      if failed (rv r) then
        C_OCIHandleFree (Conn.env conn) OCI_HTYPE_ENV;;
        mret (Err "cant allocate error handle")
      else
      let conn := Conn.set_errHandle (ptr r) conn in
      opened ← (if useOCISessionBegin then openSession dsn conn
                else openLogon dsn conn);
      match opened with
      | Err e => mret (Err e)
      | Panic => mret Panic
      | Ok conn => mret (Ok (Conn.copySettings dsn conn))
      end
  end.

(** ** Commit and Rollback (oci8.go, lines 128-149)

    [tx.conn] is dereferenced first; a nil or dangling reference is a
    run-time panic. *)
Definition setInTransaction (a : Z) (b : bool) : M World (result Conn.t) :=
  fun st =>
    match heap st !! a with
    | None => (Panic, st)
    | Some c =>
        let c1 := Conn.set_inTransaction b c in
        (Ok c1, mkState (world st) (<[a := c1]> (heap st))
                  (trace st ++ [SetInTransaction a b]))
    end.

Definition Commit (tx : OCI8Tx) : M World (result unit) :=
  written ← setInTransaction (tx_conn tx) false;
  match written with
  | Err e => mret (Err e)
  | Panic => mret Panic
  | Ok conn =>
      st ← C_OCITransCommit (Conn.svc conn) (Conn.errHandle conn) 0;
      if failed st then
        e ← conn_getError conn st;
        mret (Err e)
      else mret (Ok tt)
  end.

Definition Rollback (tx : OCI8Tx) : M World (result unit) :=
  written ← setInTransaction (tx_conn tx) false;
  match written with
  | Err e => mret (Err e)
  | Panic => mret Panic
  | Ok conn =>
      st ← C_OCITransRollback (Conn.svc conn) (Conn.errHandle conn) 0;
      if failed st then
        e ← conn_getError conn st;
        mret (Err e)
      else mret (Ok tt)
  end.

End WithEnvironment.

End Driver.

(** ** Reading a trace: which handles were acquired and released *)

Module Ledger.

(** A native handle: its type tag and its address. *)
Definition handle : Type := (Z * Z)%type.

(** The handle an event acquires.  A call acquires a handle when it
    reports a status that [Open] takes as success for that call. *)
Definition acquires (e : event) : option handle :=
  match e with
  | EnvCreate _ _ r =>
      if Driver.failed_info (rv r) then None else Some (OCI_HTYPE_ENV, ptr r)
  | HandleAlloc _ htype _ r =>
      if Driver.failed (rv r) then None else Some (htype, ptr r)
  | Logon _ _ _ _ _ _ _ _ r =>
      if Driver.failed_info (rv r) then None
      else Some (OCI_HTYPE_SVCCTX, ptr r)
  | _ => None
  end.

Definition releases (e : event) : option handle :=
  match e with
  | HandleFree h htype => Some (htype, h)
  | _ => None
  end.

Definition is_release (e : event) : bool :=
  match releases e with Some _ => true | None => false end.

Definition acquired (tr : list event) : list handle := omap acquires tr.

Definition released (tr : list event) : list handle := omap releases tr.

Definition free_of (h : handle) : event := HandleFree (snd h) (fst h).

(** The handles still held after a trace, most recent first.  A release
    must name the most recently acquired handle that is still held;
    [None] reports a release out of order or of a handle not held. *)
Fixpoint held (stack : list handle) (tr : list event)
  : option (list handle) :=
  match tr with
  | [] => Some stack
  | e :: rest =>
      match acquires e, releases e with
      | Some h, _ => held (h :: stack) rest
      | None, Some h =>
          match stack with
          | top :: below =>
              if decide (top = h) then held below rest else None
          | [] => None
          end
      | None, None => held stack rest
      end
  end.

End Ledger.

(** ** The URL helpers as the specification describes them *)

Module SpecHelpers.

(** Modelled from the spec: [splitRight] is declared outside oci8.go.
    The spec splits "at the last" occurrence of the separator.  When the
    separator does not occur the spec does not say which part is empty;
    here the whole text is the right part. *)
Fixpoint splitRight_found (s sep : string) : option (string * string) :=
  match s with
  | EmptyString => None
  | String c rest =>
      match splitRight_found rest sep with
      | Some (l, r) => Some (String c l, r)
      | None =>
          if String.prefix sep s
          then Some (EmptyString,
                     String.substring (String.length sep)
                       (String.length s - String.length sep)%nat s)
          else None
      end
  end.

Definition splitRight (s sep : string) : string * string :=
  match splitRight_found s sep with
  | Some lr => lr
  | None => (EmptyString, s)
  end.

Definition unhex (c : ascii) : option N :=
  let n := N_of_ascii c in
  if ((48 <=? n) && (n <=? 57))%N then Some (n - 48)%N
  else if ((65 <=? n) && (n <=? 70))%N then Some (n - 55)%N
  else if ((97 <=? n) && (n <=? 102))%N then Some (n - 87)%N
  else None.

(** Modelled from the spec: [unescape] is declared outside oci8.go.
    Percent-decoding: a percent sign followed by two hexadecimal digits
    is one byte, any other use of the percent sign is an error; in a
    query component a plus sign is a space (form encoding). *)
Fixpoint unescape (s : string) (mode : encoding) : result string :=
  match s with
  | EmptyString => Ok EmptyString
  | String c rest =>
      if Ascii.eqb c "%" then
        match rest with
        | String a (String b rest2) =>
            match unhex a, unhex b with
            | Some x, Some y =>
                out ← unescape rest2 mode;
                Ok (String (ascii_of_N (16 * x + y)) out)
            | _, _ => Err "invalid URL escape"
            end
        | _ => Err "invalid URL escape"
        end
      else
        out ← unescape rest mode;
        match mode with
        | encodeQueryComponent =>
            Ok (String (if Ascii.eqb c "+" then " "%char else c) out)
        | _ => Ok (String c out)
        end
  end.

(** Modelled from the spec: [parseAuthority] is declared outside oci8.go.
    The authority is split "at the last /" into username and password,
    "each percent-decoded"; without a slash it is the username alone. *)
Definition parseAuthority (authority : string) : result (string * string) :=
  let '(u, p) :=
    match splitRight_found authority "/" with
    | Some up => up
    | None => (authority, EmptyString)
    end in
  u1 ← unescape u encodeUserPassword;
  p1 ← unescape p encodeUserPassword;
  Ok (u1, p1).

(** The pieces of [s] between occurrences of [sep]. *)
Fixpoint pieces (sep : ascii) (s : string) : list string :=
  match s with
  | EmptyString => [EmptyString]
  | String c rest =>
      if Ascii.eqb c sep then EmptyString :: pieces sep rest
      else match pieces sep rest with
           | seg :: segs => String c seg :: segs
           | [] => [String c EmptyString]
           end
  end.

(** [s] cut at the first [sep]; all of [s] and nothing when there is none. *)
Fixpoint cut (sep : ascii) (s : string) : string * string :=
  match s with
  | EmptyString => (EmptyString, EmptyString)
  | String c rest =>
      if Ascii.eqb c sep then (EmptyString, rest)
      else let '(l, r) := cut sep rest in (String c l, r)
  end.

Definition addPair (acc : gmap string (list string) * option string)
    (pair : string) : gmap string (list string) * option string :=
  let '(m, err) := acc in
  if String.eqb pair "" then acc else
  let '(k, v) := cut "=" pair in
  match unescape k encodeQueryComponent, unescape v encodeQueryComponent with
  | Ok k1, Ok v1 => (<[k1 := (default [] (m !! k1) ++ [v1])%list]> m, err)
  | Ok _, Err e | Err e, _ =>
      (m, match err with Some _ => err | None => Some e end)
  | _, _ => (m, err)
  end.

(** Modelled from the spec: [ParseQuery] is declared outside oci8.go.
    "Standard form-encoding rules: &-separated pairs, =-separated
    key/value, percent-decoded", into "a mapping from parameter name to
    list of values".  A pair that does not decode is left out and the
    first such failure is the error returned with the mapping. *)
Definition ParseQuery (query : string)
  : gmap string (list string) * option string :=
  fold_left addPair (pieces "&" query) (∅, None).

(** The time-zone database: the two names Go always knows and the zones
    installed on the host. *)
Definition LoadLocation (zones : list string) (name : string)
  : result time_Location :=
  if String.eqb name "" || String.eqb name "UTC"
  then Ok {| zoneName := "UTC" |}
  else if String.eqb name "Local" then Ok time_Local
  else if existsb (String.eqb name) zones then Ok {| zoneName := name |}
  else Err ("unknown time zone " ++ name).

Definition zoneinfo : list string :=
  ["America/Phoenix"; "Europe/Paris"; "Asia/Tokyo"].

(** The package with these helpers; [session] is the protocol switch. *)
Definition package (session : bool) : Package :=
  Build_Package splitRight parseAuthority unescape ParseQuery
    (LoadLocation zoneinfo) session map_to_list
    (fun m => reflexivity (map_to_list m)).

End SpecHelpers.

(** ** A scripted native layer

    The library state is a script of statuses, one per native call that
    reports a status, and the next free address.  An allocating call hands
    out a fresh address unless its status is one the driver rejects.  When
    the script runs out every call succeeds. *)

Module Fake.

Record world : Type := { script : list Z; next : Z }.

Definition status (w : world) : Z * world :=
  match script w with
  | [] => (OCI_SUCCESS, w)
  | s :: rest => (s, {| script := rest; next := next w |})
  end.

Definition alloc (rejected : Z -> bool) (w : world) : ret * world :=
  let '(s, w1) := status w in
  if rejected s then ({| rv := s; ptr := 0 |}, w1)
  else ({| rv := s; ptr := next w1 |},
        {| script := script w1; next := next w1 + 1 |}).

Definition layer : Layer world := {|
  WrapOCIEnvCreate := fun _ _ => alloc Driver.failed_info;
  WrapOCIHandleAlloc := fun _ _ _ => alloc Driver.failed;
  OCIHandleFree := fun _ _ w => (OCI_SUCCESS, w);
  WrapOCIServerAttach := fun _ _ _ _ _ => status;
  OCIAttrSet := fun _ _ _ _ _ _ => status;
  WrapOCISessionBegin := fun _ _ _ _ _ => status;
  WrapOCILogon := fun _ _ _ _ _ _ _ _ => alloc Driver.failed_info;
  OCITransCommit := fun _ _ _ => status;
  OCITransRollback := fun _ _ _ => status;
  getError := fun _ st w => ("ORA status " ++ Itoa st, w)
|}.

Definition start (statuses : list Z) : state world :=
  mkState {| script := statuses; next := 4096 |} ∅ [].

End Fake.

(** ** Sample inputs

    The helpers of [SpecHelpers], the scripted layer and a driver without
    a logger, for evaluating the parser and [Open] on concrete inputs. *)
Module Samples.

Definition session_package : Package := SpecHelpers.package true.

Definition cfg (user pass connect : string) (mode : Z) (ext : bool)
  : DSN.t :=
  DSN.mk user pass connect time_Local 0 false 10 0 mode ext.

Definition driver : OCI8DriverStruct := {| driverLogger := None |}.

(** [Open] against the scripted layer. *)
Definition open (session : bool) (dsnString : string) (statuses : list Z)
  : result Conn.t * state Fake.world :=
  Driver.Open (pkg := SpecHelpers.package session) (native := Fake.layer)
    driver dsnString (Fake.start statuses).

(** A connection inside a transaction, at address 64 of the heap. *)
Definition busy : Conn.t :=
  Conn.mk 4096 4097 4098 4099 4100 OCI_DEFAULT (Some discardLogger)
    (Some time_Local) 0 10 0 false true.

Definition tx : OCI8Tx := {| tx_conn := 64 |}.

Definition in_transaction (statuses : list Z) : state Fake.world :=
  mkState {| Fake.script := statuses; Fake.next := 8192 |}
    {[ 64 := busy ]} [].

End Samples.

(** ** Reading the parameter loop

    Vocabulary for statements about the loop of [ParseDSN]: the keys the
    switch has a case for, the one field each case writes, and when two
    results agree on everything but the text of an error. *)

Module Loop.

(** The keys with a case in [switch k] (lines 68-116). *)
Definition recognized (k : string) : bool :=
  existsb (String.eqb k)
    ["loc"; "isolation"; "questionph"; "prefetch_rows"; "prefetch_memory";
     "as"].

(** The write a case performs on the configuration: at most one field. *)
Inductive update : Type :=
| SetLocation (l : time_Location)
| SetTransactionMode (m : Z)
| SetQMPlaceholders (b : bool)
| SetPrefetchRows (n : Z)
| SetPrefetchMemory (n : Z)
| SetOperationMode (m : Z)
| NoUpdate.

Definition apply_update (u : update) (d : DSN.t) : DSN.t :=
  match u with
  | SetLocation l => DSN.set_Location l d
  | SetTransactionMode m => DSN.set_transactionMode m d
  | SetQMPlaceholders b => DSN.set_enableQMPlaceholders b d
  | SetPrefetchRows n => DSN.set_prefetchRows n d
  | SetPrefetchMemory n => DSN.set_prefetchMemory n d
  | SetOperationMode m => DSN.set_operationMode m d
  | NoUpdate => d
  end.

(** The key whose case performs the write. *)
Definition update_key (u : update) : option string :=
  match u with
  | SetLocation _ => Some "loc"
  | SetTransactionMode _ => Some "isolation"
  | SetQMPlaceholders _ => Some "questionph"
  | SetPrefetchRows _ => Some "prefetch_rows"
  | SetPrefetchMemory _ => Some "prefetch_memory"
  | SetOperationMode _ => Some "as"
  | NoUpdate => None
  end.

(** Two results agree when both are the same value or neither is a
    value; which error or panic it is may differ. *)
Definition agree {A : Type} (r1 r2 : result A) : Prop :=
  match r1, r2 with
  | Ok a, Ok b => a = b
  | Ok _, _ | _, Ok _ => False
  | _, _ => True
  end.

(** The same package with another order of iteration over a mapping. *)
Definition with_range_order (P : Package)
    (order : gmap string (list string) -> list (string * list string))
    (Hperm : forall m, order m ≡ₚ map_to_list m) : Package :=
  Build_Package splitRight parseAuthority unescape ParseQuery
    time_LoadLocation useOCISessionBegin order Hperm.

(** The same package with another [ParseQuery]. *)
Definition with_query (P : Package)
    (query : string -> gmap string (list string) * option string)
  : Package :=
  Build_Package splitRight parseAuthority unescape query
    time_LoadLocation useOCISessionBegin rangeOrder rangeOrder_perm.

(** A [ParseQuery] that drops the entry of [k] from the mapping. *)
Definition without_key (P : Package) (k : string) (text : string)
  : gmap string (list string) * option string :=
  (delete k (fst (ParseQuery text)), snd (ParseQuery text)).

(** A [ParseQuery] that keeps only the first value of every entry. *)
Definition first_value_only (P : Package) (text : string)
  : gmap string (list string) * option string :=
  (firstn 1 <$> fst (ParseQuery text), snd (ParseQuery text)).

(** Iteration in the reverse of the order [map_to_list] gives. *)
Definition backwards (m : gmap string (list string))
  : list (string * list string) :=
  rev (map_to_list m).

(** Only the first value of every entry. *)
Definition first_values (entries : list (string * list string))
  : list (string * list string) :=
  map (fun kv => (fst kv, firstn 1 (snd kv))) entries.

Section WithPackage.
Context {pkg : Package}.

(** The write that the case of [k] performs for the values [v], if it
    performs one: [Parse.applyParam] without the configuration. *)
Definition paramUpdate (k : string) (v : list string) : result update :=
  if String.eqb k "loc" then
    match v with
    | [] => Ok NoUpdate
    | v0 :: _ =>
        match time_LoadLocation v0 with
        | Ok l => Ok (SetLocation l)
        | Err e => Err ("Invalid loc: " ++ v0 ++ ": " ++ e)
        | Panic => Panic
        end
    end
  else if String.eqb k "isolation" then
    v0 ← Parse.index0 v;
    if String.eqb v0 "READONLY" then
      Ok (SetTransactionMode OCI_TRANS_READONLY)
    else if String.eqb v0 "SERIALIZABLE" then
      Ok (SetTransactionMode OCI_TRANS_SERIALIZABLE)
    else if String.eqb v0 "DEFAULT" then
      Ok (SetTransactionMode OCI_TRANS_READWRITE)
    else Err ("Invalid isolation: " ++ v0)
  else if String.eqb k "questionph" then
    v0 ← Parse.index0 v;
    if String.eqb v0 "YES" || String.eqb v0 "TRUE" then
      Ok (SetQMPlaceholders true)
    else if String.eqb v0 "NO" || String.eqb v0 "FALSE" then
      Ok (SetQMPlaceholders false)
    else Err ("Invalid questionpm: " ++ v0)
  else if String.eqb k "prefetch_rows" then
    v0 ← Parse.index0 v;
    match Parse.ParseUint32 v0 with
    | Ok z => Ok (SetPrefetchRows (ub4 z))
    | _ => Err ("invalid prefetch_rows: " ++ v0)
    end
  else if String.eqb k "prefetch_memory" then
    v0 ← Parse.index0 v;
    match Parse.ParseUint32 v0 with
    | Ok z => Ok (SetPrefetchMemory (ub4 z))
    | _ => Err ("invalid prefetch_memory: " ++ v0)
    end
  else if String.eqb k "as" then
    v0 ← Parse.index0 v;
    if String.eqb v0 "SYSDBA" || String.eqb v0 "sysdba" then
      Ok (SetOperationMode OCI_SYSDBA)
    else if String.eqb v0 "SYSASM" || String.eqb v0 "sysasm" then
      Ok (SetOperationMode OCI_SYSASM)
    else if String.eqb v0 "SYSOPER" || String.eqb v0 "sysoper" then
      Ok (SetOperationMode OCI_SYSOPER)
    else Err ("Invalid as: " ++ v0)
  else Ok NoUpdate.

End WithPackage.

End Loop.

(** ** Reading the trace of Open *)

Module Ladder.

(** A call whose status [Open] tests and takes as a failure. *)
Definition rejected (e : event) : bool :=
  match e with
  | EnvCreate _ _ r => Driver.failed_info (rv r)
  | HandleAlloc _ _ _ r => Driver.failed (rv r)
  | AttrSet _ _ _ _ _ _ st => Driver.failed st
  | Logon _ _ _ _ _ _ _ _ r => Driver.failed_info (rv r)
  | _ => false
  end.

(** Reading the diagnostic and releasing a handle. *)
Definition cleanup (e : event) : bool :=
  match e with
  | GetError _ _ | HandleFree _ _ => true
  | _ => false
  end.

(** The calls of the direct-logon branch. *)
Definition direct_call (e : event) : bool :=
  match e with
  | EnvCreate _ _ _ | Logon _ _ _ _ _ _ _ _ _ | GetError _ _
  | HandleFree _ _ => true
  | HandleAlloc _ htype _ _ => (htype =? OCI_HTYPE_ERROR)%Z
  | _ => false
  end.

(** The same native layer, except that server attach and session begin
    always report success; their effect on the library is unchanged. *)
Definition silence {World : Type} (L : Layer World) : Layer World := {|
  WrapOCIEnvCreate := WrapOCIEnvCreate;
  WrapOCIHandleAlloc := WrapOCIHandleAlloc;
  OCIHandleFree := OCIHandleFree;
  WrapOCIServerAttach := fun srvh errh dblink dblen mode w =>
    (OCI_SUCCESS, snd (WrapOCIServerAttach srvh errh dblink dblen mode w));
  OCIAttrSet := OCIAttrSet;
  WrapOCISessionBegin := fun svch errh usrh cred mode w =>
    (OCI_SUCCESS, snd (WrapOCISessionBegin svch errh usrh cred mode w));
  WrapOCILogon := WrapOCILogon;
  OCITransCommit := OCITransCommit;
  OCITransRollback := OCITransRollback;
  getError := getError
|}.

(** The handles of a connection, in the order [Open] acquires them. *)
Definition session_handles (c : Conn.t) : list Ledger.handle :=
  [(OCI_HTYPE_ENV, Conn.env c); (OCI_HTYPE_ERROR, Conn.errHandle c);
   (OCI_HTYPE_SERVER, Conn.srv c); (OCI_HTYPE_SVCCTX, Conn.svc c);
   (OCI_HTYPE_SESSION, Conn.usrSession c)].

Definition logon_handles (c : Conn.t) : list Ledger.handle :=
  [(OCI_HTYPE_ENV, Conn.env c); (OCI_HTYPE_ERROR, Conn.errHandle c);
   (OCI_HTYPE_SVCCTX, Conn.svc c)].

End Ladder.

(** ** Sample runs of Open *)

Module Runs.

(** The connection a run returned; an empty connection when it returned
    none. *)
Definition conn_of (run : result Conn.t * state Fake.world) : Conn.t :=
  match fst run with
  | Ok c => c
  | _ => Conn.new 0 None
  end.

(** The session protocol, every call succeeding, as SYSDBA. *)
Definition sysdba : result Conn.t * state Fake.world :=
  Samples.open true "u/p@host?as=sysdba" [].

(** The session protocol with external authentication, as SYSOPER. *)
Definition external : result Conn.t * state Fake.world :=
  Samples.open true "oracle://@?as=sysoper" [].

(** The direct logon, with an informational status. *)
Definition direct : result Conn.t * state Fake.world :=
  Samples.open false "u/p@host?as=sysdba" [0; 0; 1].

(** The session protocol; the allocation of the session handle fails. *)
Definition no_session_handle : result Conn.t * state Fake.world :=
  Samples.open true "u/p@host?as=sysdba" [0; 0; 0; 0; 0; 0; -1].

End Runs.

(** * Properties *)

(** ** Placeholder rewriting *)

Module PlaceholdersFacts.
Import Placeholders.

Lemma append_nil (b : string) : "" ++ b = b.
Proof. reflexivity. Qed.

Lemma append_cons (c : ascii) (a b : string) :
  String c a ++ b = String c (a ++ b).
Proof. reflexivity. Qed.

Lemma append_assoc (a b c : string) : (a ++ b) ++ c = a ++ (b ++ c).
Proof.
  induction a as [|x a IH]; [reflexivity |].
  rewrite !append_cons. now rewrite IH.
Qed.

Lemma has_marker_app (a b : string) :
  has_marker (a ++ b) = (has_marker a || has_marker b)%bool.
Proof.
  induction a as [|x a IH]; [reflexivity |].
  rewrite append_cons. simpl. rewrite IH. now rewrite orb_assoc.
Qed.

Lemma uint_no_marker (d : Decimal.uint) :
  has_marker (NilEmpty.string_of_uint d) = false.
Proof. induction d; simpl; auto. Qed.

Lemma nilzero_no_marker (d : Decimal.uint) :
  has_marker (NilZero.string_of_uint d) = false.
Proof. destruct d; first [reflexivity | apply uint_no_marker]. Qed.

Lemma Itoa_no_marker (n : Z) : has_marker (Itoa n) = false.
Proof.
  unfold Itoa, NilZero.string_of_int.
  destruct (Z.to_int n) as [d | d]; [apply nilzero_no_marker |].
  change (has_marker (NilZero.string_of_uint d) = false).
  apply nilzero_no_marker.
Qed.

Lemma wrap_int_small (z : Z) : - 2 ^ 63 <= z < 2 ^ 63 -> wrap_int z = z.
Proof.
  intros Hz. unfold wrap_int.
  rewrite Z.mod_small by lia. lia.
Qed.

(** Text without a marker is copied and leaves the counter alone. *)
Lemma replace_unmarked (seg rest : string) (n : Z) :
  has_marker seg = false ->
  ReplaceAllStringFunc phre (seg ++ rest) next_marker n
  = (seg ++ fst (ReplaceAllStringFunc phre rest next_marker n),
     snd (ReplaceAllStringFunc phre rest next_marker n)).
Proof.
  induction seg as [|c seg IH]; intros Hm.
  - rewrite !append_nil. apply surjective_pairing.
  - simpl in Hm. apply orb_false_iff in Hm as [Hc Hs].
    rewrite !append_cons. simpl. rewrite Hc, (IH Hs). reflexivity.
Qed.

Lemma replace_markers (segs : list string) (k : nat) :
  Forall (fun s => has_marker s = false) segs ->
  Z.of_nat (k + length segs) < 2 ^ 63 ->
  ReplaceAllStringFunc phre (with_markers segs) next_marker (Z.of_nat k)
  = (with_numbers k segs, Z.of_nat (k + length segs)).
Proof.
  revert k. induction segs as [|seg segs IH]; intros k Hall Hk.
  - simpl. now rewrite Nat.add_0_r.
  - inversion Hall as [|? ? Hseg Hrest]; subst.
    simpl in Hk.
    assert (Hn : wrap_int (Z.of_nat k + 1) = Z.of_nat (S k)).
    { rewrite wrap_int_small; lia. }
    cbn [with_markers with_numbers].
    rewrite append_cons, append_nil. simpl.
    rewrite Hn, (replace_unmarked _ _ _ Hseg).
    rewrite (IH (S k) Hrest) by (simpl; lia).
    cbn [fst snd]. rewrite append_assoc.
    f_equal. f_equal. lia.
Qed.

Lemma replace_no_marker (s : string) (n : Z) :
  has_marker (fst (ReplaceAllStringFunc phre s next_marker n)) = false.
Proof.
  revert n. induction s as [|c s IH]; intros n; simpl; [reflexivity |].
  destruct (Ascii.eqb c "?") eqn:Hc.
  - specialize (IH (wrap_int (n + 1))).
    destruct (ReplaceAllStringFunc phre s next_marker (wrap_int (n + 1))).
    simpl in *. rewrite has_marker_app, has_marker_app, Itoa_no_marker, IH.
    reflexivity.
  - specialize (IH n).
    destruct (ReplaceAllStringFunc phre s next_marker n).
    simpl in *. now rewrite Hc, IH.
Qed.

Lemma placeholders_unmarked (s : string) :
  has_marker s = false -> placeholders s = s.
Proof.
  intros Hs. unfold placeholders.
  induction s as [|c s IH]; simpl; [reflexivity |].
  simpl in Hs. apply orb_false_iff in Hs as [Hc Hs].
  rewrite Hc. specialize (IH Hs).
  destruct (ReplaceAllStringFunc phre s next_marker 0).
  simpl in *. now rewrite IH.
Qed.

End PlaceholdersFacts.

(** C7.  [placeholders] replaces the markers of its input, left to right,
    by [:1], [:2], ..., [:n], starting from 1 on each call: a text made of
    marker-free pieces joined by markers becomes the same pieces joined by
    the numbered markers (for fewer than 2^63 markers, which any Go string
    has).  The example of the specification evaluates as stated, the output
    contains no marker, and a second application changes nothing. *)
Theorem placeholders_numbers_markers :
  (forall (seg0 : string) (segs : list string),
      Placeholders.has_marker seg0 = false ->
      Forall (fun s => Placeholders.has_marker s = false) segs ->
      Z.of_nat (length segs) < 2 ^ 63 ->
      Placeholders.placeholders (seg0 ++ Placeholders.with_markers segs)
      = seg0 ++ Placeholders.with_numbers 0 segs)
  /\ Placeholders.placeholders "SELECT * FROM t WHERE a=? AND b=?"
     = "SELECT * FROM t WHERE a=:1 AND b=:2"
  /\ (forall sql : string,
         Placeholders.has_marker (Placeholders.placeholders sql) = false)
  /\ (forall sql : string,
         Placeholders.placeholders (Placeholders.placeholders sql)
         = Placeholders.placeholders sql).
Proof.
  split; [| split; [| split]].
  - intros seg0 segs H0 Hall Hlen. unfold Placeholders.placeholders.
    rewrite (PlaceholdersFacts.replace_unmarked _ _ _ H0). cbn [fst].
    pose proof (PlaceholdersFacts.replace_markers segs 0 Hall Hlen) as Hm.
    change (Z.of_nat 0) with 0 in Hm. now rewrite Hm.
  - vm_compute. reflexivity.
  - intros sql. apply PlaceholdersFacts.replace_no_marker.
  - intros sql. apply PlaceholdersFacts.placeholders_unmarked.
    apply PlaceholdersFacts.replace_no_marker.
Qed.

Lemma placeholders_numbers_markers_witness :
  Placeholders.placeholders
    ("UPDATE t SET a=" ++ Placeholders.with_markers [", b="; " WHERE c="; ""])
  = "UPDATE t SET a=:1, b=:2 WHERE c=:3".
Proof.
  apply (proj1 placeholders_numbers_markers
           "UPDATE t SET a=" [", b="; " WHERE c="; ""]).
  - reflexivity.
  - repeat constructor.
  - simpl. lia.
Defined.

(** ** ParseDSN *)

Module ParseFacts.
Import Parse.

Section WithPackage.
Context {pkg : Package}.

Ltac param_step H :=
  match type of H with
  | context [String.eqb ?a ?b] =>
      let E := fresh "E" in
      destruct (String.eqb a b) eqn:E;
      [apply String.eqb_eq in E | apply String.eqb_neq in E]
  | context [index0 ?v] => destruct v; simpl in H
  | context [time_LoadLocation ?x] => destruct (time_LoadLocation x)
  | context [ParseUint32 ?x] => destruct (ParseUint32 x)
  | context [match ?v with [] => _ | _ :: _ => _ end] => destruct v
  end; simpl in H; try discriminate H.

(** What one iteration can change: only the field of its own key. *)
Lemma applyParam_ok (k : string) (v : list string) (d d1 : DSN.t) :
  applyParam k v d = Ok d1 ->
  DSN.Username d1 = DSN.Username d
  /\ DSN.Password d1 = DSN.Password d
  /\ DSN.Connect d1 = DSN.Connect d
  /\ DSN.externalauthentication d1 = DSN.externalauthentication d
  /\ (k <> "as" -> DSN.operationMode d1 = DSN.operationMode d)
  /\ (k <> "prefetch_rows" -> DSN.prefetchRows d1 = DSN.prefetchRows d)
  /\ (k <> "prefetch_memory" ->
      DSN.prefetchMemory d1 = DSN.prefetchMemory d)
  /\ (k <> "loc" -> DSN.Location d1 = DSN.Location d)
  /\ (k <> "questionph" ->
      DSN.enableQMPlaceholders d1 = DSN.enableQMPlaceholders d).
Proof.
  intros Hok. unfold applyParam in Hok.
  repeat param_step Hok;
    injection Hok as <-; simpl; repeat split; intros; congruence.
Qed.

Lemma rangeParams_ok (entries : list (string * list string))
    (d d1 : DSN.t) :
  rangeParams entries d = Ok d1 ->
  DSN.Username d1 = DSN.Username d
  /\ DSN.Password d1 = DSN.Password d
  /\ DSN.Connect d1 = DSN.Connect d
  /\ DSN.externalauthentication d1 = DSN.externalauthentication d
  /\ ("as" ∉ entries.*1 -> DSN.operationMode d1 = DSN.operationMode d)
  /\ ("prefetch_rows" ∉ entries.*1 ->
      DSN.prefetchRows d1 = DSN.prefetchRows d)
  /\ ("prefetch_memory" ∉ entries.*1 ->
      DSN.prefetchMemory d1 = DSN.prefetchMemory d)
  /\ ("loc" ∉ entries.*1 -> DSN.Location d1 = DSN.Location d)
  /\ ("questionph" ∉ entries.*1 ->
      DSN.enableQMPlaceholders d1 = DSN.enableQMPlaceholders d).
Proof.
  revert d. induction entries as [|[k v] rest IH]; intros d Hok.
  - injection Hok as <-. repeat split; reflexivity.
  - simpl in Hok.
    destruct (applyParam k v d) as [d2 | |] eqn:Hstep; try discriminate.
    simpl in Hok.
    destruct (applyParam_ok _ _ _ _ Hstep)
      as (U & P & C & X & M & R & Y & L & Q).
    destruct (IH _ Hok) as (U' & P' & C' & X' & M' & R' & Y' & L' & Q').
    rewrite U', P', C', X', U, P, C, X.
    repeat split; try reflexivity; intros Hnot;
      apply not_elem_of_cons in Hnot as [Hk Hrest]; simpl in Hk.
    + rewrite (M' Hrest). auto.
    + rewrite (R' Hrest). auto.
    + rewrite (Y' Hrest). auto.
    + rewrite (L' Hrest). auto.
    + rewrite (Q' Hrest). auto.
Qed.

(** The loop visits the entries of the mapping, each key once. *)
Lemma rangeOrder_elem (m : gmap string (list string)) k v :
  (k, v) ∈ rangeOrder m <-> m !! k = Some v.
Proof. rewrite rangeOrder_perm. apply elem_of_map_to_list. Qed.

Lemma rangeOrder_absent (m : gmap string (list string)) k :
  m !! k = None -> k ∉ (rangeOrder m).*1.
Proof.
  intros Hnone Hin. apply list_elem_of_fmap in Hin as [[k' v] [-> Hin]].
  apply rangeOrder_elem in Hin. simpl in Hnone. congruence.
Qed.

Lemma rangeOrder_NoDup (m : gmap string (list string)) :
  NoDup (rangeOrder m).*1.
Proof. rewrite rangeOrder_perm. apply NoDup_fst_map_to_list. Qed.

(** What a successful parse went through. *)
Lemma ParseDSN_ok (s : string) (d : DSN.t) :
  ParseDSN s = Ok d ->
  exists d0 d1,
    rangeParams (rangeOrder (fst (dsnQuery s))) d0 = Ok d1
    /\ d = markExternal d1
    /\ DSN.prefetchRows d0 = 10
    /\ DSN.prefetchMemory d0 = 0
    /\ DSN.operationMode d0 = OCI_DEFAULT
    /\ DSN.Location d0 = time_Local
    /\ DSN.enableQMPlaceholders d0 = false
    /\ DSN.externalauthentication d0 = false.
Proof.
  unfold ParseDSN. intros Hok.
  destruct (String.eqb s ""); [discriminate |].
  destruct (dsnAuthority s) as [authority rest0].
  destruct (dsnHostParams s) as [host params].
  destruct (dsnQuery s) as [qp qerr]. simpl.
  destruct (String.eqb authority "").
  - simpl in Hok.
    destruct (unescape host encodeHost) as [h | |]; try discriminate.
    simpl in Hok.
    match type of Hok with
    | context [rangeParams ?l ?d0] =>
        destruct (rangeParams l d0) as [d1 | |] eqn:Hloop;
        try discriminate; exists d0, d1
    end.
    simpl in Hok. injection Hok as <-. repeat split; auto.
  - destruct (parseAuthority authority) as [[u p] | |]; try discriminate.
    simpl in Hok.
    destruct (unescape host encodeHost) as [h | |]; try discriminate.
    simpl in Hok.
    match type of Hok with
    | context [rangeParams ?l ?d0] =>
        destruct (rangeParams l d0) as [d1 | |] eqn:Hloop;
        try discriminate; exists d0, d1
    end.
    simpl in Hok. injection Hok as <-. repeat split; auto.
Qed.

Lemma markExternal_fields (d : DSN.t) :
  DSN.Username (markExternal d) = DSN.Username d
  /\ DSN.Password (markExternal d) = DSN.Password d
  /\ DSN.Connect (markExternal d) = DSN.Connect d
  /\ DSN.operationMode (markExternal d) = DSN.operationMode d
  /\ DSN.prefetchRows (markExternal d) = DSN.prefetchRows d
  /\ DSN.prefetchMemory (markExternal d) = DSN.prefetchMemory d
  /\ DSN.Location (markExternal d) = DSN.Location d
  /\ DSN.enableQMPlaceholders (markExternal d)
     = DSN.enableQMPlaceholders d.
Proof.
  unfold markExternal.
  destruct (_ =? _)%Z; simpl; repeat split; reflexivity.
Qed.

(** An entry of a duplicate-free enumeration is applied once, and no
    later iteration has its key. *)
Lemma rangeParams_visits (entries : list (string * list string))
    (k : string) (v : list string) (d d1 : DSN.t) :
  NoDup entries.*1 ->
  (k, v) ∈ entries ->
  rangeParams entries d = Ok d1 ->
  exists da db later,
    applyParam k v da = Ok db
    /\ rangeParams later db = Ok d1
    /\ k ∉ later.*1.
Proof.
  revert d. induction entries as [|[k0 v0] rest IH]; intros d Hnd Hin Hok.
  - inversion Hin.
  - simpl in Hok, Hnd. apply NoDup_cons in Hnd as [Hfresh Hnd].
    destruct (applyParam k0 v0 d) as [d2 | |] eqn:Hstep; try discriminate.
    simpl in Hok.
    apply elem_of_cons in Hin as [Heq | Hin].
    + injection Heq as -> ->. exists d, d2, rest. auto.
    + apply (IH d2); assumption.
Qed.

Lemma rangeParams_rejects (entries : list (string * list string))
    (k : string) (v : list string) (d : DSN.t) :
  (k, v) ∈ entries ->
  (forall da, is_ok (applyParam k v da) = false) ->
  is_ok (rangeParams entries d) = false.
Proof.
  revert d. induction entries as [|[k0 v0] rest IH]; intros d Hin Hbad.
  - inversion Hin.
  - simpl. apply elem_of_cons in Hin as [Heq | Hin].
    + injection Heq as <- <-. specialize (Hbad d).
      destruct (applyParam k v d); simpl in *; congruence.
    + destruct (applyParam k0 v0 d); simpl; auto.
Qed.

(** The case [as] of the switch, as written at lines 106-116. *)
Lemma applyParam_as (v0 : string) (rest : list string) (d : DSN.t) :
  applyParam "as" (v0 :: rest) d
  = if (String.eqb v0 "SYSDBA" || String.eqb v0 "sysdba")%bool then
      Ok (DSN.set_operationMode OCI_SYSDBA d)
    else if (String.eqb v0 "SYSASM" || String.eqb v0 "sysasm")%bool then
      Ok (DSN.set_operationMode OCI_SYSASM d)
    else if (String.eqb v0 "SYSOPER" || String.eqb v0 "sysoper")%bool then
      Ok (DSN.set_operationMode OCI_SYSOPER d)
    else Err ("Invalid as: " ++ v0).
Proof. reflexivity. Qed.

Lemma ParseDSN_as_mode (s v0 : string) (rest : list string) (d : DSN.t) :
  fst (dsnQuery s) !! "as" = Some (v0 :: rest) ->
  ParseDSN s = Ok d ->
  exists da,
    applyParam "as" (v0 :: rest) da
    = Ok (DSN.set_operationMode (DSN.operationMode d) da).
Proof.
  intros Has Hok.
  destruct (ParseDSN_ok _ _ Hok) as (d0 & d1 & Hloop & -> & _).
  apply rangeOrder_elem in Has.
  destruct (rangeParams_visits _ _ _ _ _ (rangeOrder_NoDup _) Has Hloop)
    as (da & db & later & Hstep & Hlater & Hfresh).
  destruct (rangeParams_ok _ _ _ Hlater) as (_ & _ & _ & _ & M & _).
  destruct (markExternal_fields d1) as (_ & _ & _ & -> & _).
  rewrite (M Hfresh). exists da. rewrite Hstep.
  rewrite applyParam_as in Hstep.
  repeat match type of Hstep with
         | context [if ?b then _ else _] => destruct b
         end; try discriminate; injection Hstep as <-; reflexivity.
Qed.

End WithPackage.

End ParseFacts.

(** C2 (the code departs from it).  With the helpers of the specification,
    the query string of [u/p@host?as=%zz] does not decode: [ParseQuery]
    signals a failure.  [ParseDSN] nevertheless returns a configuration and
    a nil error, because the error assigned at line 65 is never tested. *)
Theorem ParseDSN_drops_query_error :
  snd (Parse.dsnQuery (pkg := Samples.session_package) "u/p@host?as=%zz")
  = Some "invalid URL escape"
  /\ Parse.ParseDSN (pkg := Samples.session_package) "u/p@host?as=%zz"
     = Ok (Samples.cfg "u" "p" "host" OCI_DEFAULT false).
Proof. split; vm_compute; reflexivity. Qed.

(** Whatever [ParseQuery] is, [ParseDSN] does not look at its error. *)
Lemma ParseDSN_ignores_query_error (P : Package) (s : string) :
  Parse.ParseDSN (pkg := without_query_error P) s
  = Parse.ParseDSN (pkg := P) s.
Proof.
  unfold Parse.ParseDSN, Parse.dsnQuery, Parse.dsnHostParams,
    Parse.dsnAuthority. simpl.
  destruct (ParseQuery _) as [qp qerr]. reflexivity.
Qed.

(** The failures that [ParseDSN] does test end the parse with that error
    and no configuration: the empty input, the authority, the host. *)
Lemma ParseDSN_checked_failures (P : Package) (s e : string) :
  Parse.ParseDSN "" = Err "empty dsn"
  /\ (s <> "" ->
      fst (Parse.dsnAuthority s) <> "" ->
      parseAuthority (fst (Parse.dsnAuthority s)) = Err e ->
      Parse.ParseDSN s = Err e)
  /\ (s <> "" ->
      fst (Parse.dsnAuthority s) = "" ->
      unescape (fst (Parse.dsnHostParams s)) encodeHost = Err e ->
      Parse.ParseDSN s = Err e).
Proof.
  split; [reflexivity |].
  split; intros Hs Ha Hfail; unfold Parse.ParseDSN;
    apply String.eqb_neq in Hs; rewrite Hs;
    destruct (Parse.dsnAuthority s) as [authority rest0];
    destruct (Parse.dsnHostParams s) as [host params];
    destruct (Parse.dsnQuery s) as [qp qerr]; simpl in *.
  - apply String.eqb_neq in Ha. rewrite Ha, Hfail. reflexivity.
  - rewrite Ha. simpl. rewrite Hfail. reflexivity.
Qed.

(** C3 (as stated, refuted).  The value [SysDba] of the parameter [as] is
    a case variant of SYSDBA, and it is rejected: by the case [as] of the
    switch, and by [ParseDSN] on a connection string that carries it. *)
Lemma as_mixed_case_rejected :
  Parse.applyParam (pkg := Samples.session_package) "as" ["SysDba"]
    (DSN.new time_Local)
  = Err "Invalid as: SysDba"
  /\ Parse.ParseDSN (pkg := Samples.session_package) "u/p@host?as=SysDba"
     = Err "Invalid as: SysDba".
Proof. split; vm_compute; reflexivity. Qed.

(** C3 (amended).  The first value of the parameter [as] is compared with
    six exact spellings: [SYSDBA] and [sysdba], [SYSASM] and [sysasm],
    [SYSOPER] and [sysoper] select the corresponding privileged mode in
    every successful parse; with any other value, mixed case included, the
    case [as] returns the error "Invalid as: <value>" and [ParseDSN] does
    not succeed. *)
Theorem ParseDSN_as_exact_spellings :
  forall (P : Package) (s v0 : string) (rest : list string),
    fst (Parse.dsnQuery s) !! "as" = Some (v0 :: rest) ->
    (v0 = "SYSDBA" \/ v0 = "sysdba" ->
     forall d, Parse.ParseDSN s = Ok d -> DSN.operationMode d = OCI_SYSDBA)
    /\ (v0 = "SYSASM" \/ v0 = "sysasm" ->
        forall d, Parse.ParseDSN s = Ok d -> DSN.operationMode d = OCI_SYSASM)
    /\ (v0 = "SYSOPER" \/ v0 = "sysoper" ->
        forall d, Parse.ParseDSN s = Ok d ->
                  DSN.operationMode d = OCI_SYSOPER)
    /\ (v0 ∉ ["SYSDBA"; "sysdba"; "SYSASM"; "sysasm"; "SYSOPER"; "sysoper"] ->
        is_ok (Parse.ParseDSN s) = false
        /\ forall d, Parse.applyParam "as" (v0 :: rest) d
                     = Err ("Invalid as: " ++ v0)).
Proof.
  intros P s v0 rest Has.
  assert (Hmode : forall d, Parse.ParseDSN s = Ok d ->
            exists da, Parse.applyParam "as" (v0 :: rest) da
                       = Ok (DSN.set_operationMode (DSN.operationMode d) da))
    by (intros d; apply ParseFacts.ParseDSN_as_mode; assumption).
  split; [| split; [| split]].
  - intros [-> | ->] d Hok; destruct (Hmode d Hok) as [da Hda];
      vm_compute in Hda; injection Hda as Hda; symmetry; exact Hda.
  - intros [-> | ->] d Hok; destruct (Hmode d Hok) as [da Hda];
      vm_compute in Hda; injection Hda as Hda; symmetry; exact Hda.
  - intros [-> | ->] d Hok; destruct (Hmode d Hok) as [da Hda];
      vm_compute in Hda; injection Hda as Hda; symmetry; exact Hda.
  - intros Hnot.
    assert (Hbad : forall d, Parse.applyParam "as" (v0 :: rest) d
                             = Err ("Invalid as: " ++ v0)).
    { intros d. rewrite ParseFacts.applyParam_as.
      repeat match goal with
             | |- context [String.eqb v0 ?x] =>
                 let E := fresh "E" in
                 destruct (String.eqb v0 x) eqn:E;
                 [apply String.eqb_eq in E; subst v0; exfalso; apply Hnot;
                  repeat first [apply list_elem_of_here
                               | apply list_elem_of_further] |]
             end.
      reflexivity. }
    split; [| exact Hbad].
    destruct (Parse.ParseDSN s) as [d | |] eqn:Hok; try reflexivity.
    exfalso.
    destruct (ParseFacts.ParseDSN_ok _ _ Hok) as (d0 & d1 & Hloop & _).
    apply ParseFacts.rangeOrder_elem in Has.
    pose proof (ParseFacts.rangeParams_rejects _ _ _ d0 Has) as Hrej.
    rewrite Hloop in Hrej. apply Bool.diff_true_false, Hrej.
    intros da. now rewrite Hbad.
Qed.

Lemma ParseDSN_as_exact_spellings_witness :
  DSN.operationMode (Samples.cfg "u" "p" "host" OCI_SYSDBA false) = OCI_SYSDBA
  /\ is_ok (Parse.ParseDSN (pkg := Samples.session_package)
              "u/p@host?as=Sysdba") = false.
Proof.
  split.
  - apply (proj1 (ParseDSN_as_exact_spellings Samples.session_package
                    "u/p@host?as=sysdba" "sysdba" [] eq_refl)).
    + right. reflexivity.
    + vm_compute. reflexivity.
  - apply (proj2 (proj2 (proj2
             (ParseDSN_as_exact_spellings Samples.session_package
                "u/p@host?as=Sysdba" "Sysdba" [] eq_refl)))).
    vm_compute. intros Hin.
    repeat (apply elem_of_cons in Hin as [Hin | Hin]; [discriminate Hin |]).
    inversion Hin.
Defined.

Lemma len_zero (s : string) : len s = 0 <-> s = "".
Proof.
  unfold len. destruct s; simpl; split; intros Hs;
    first [reflexivity | discriminate Hs | lia].
Qed.

Lemma len_nonneg (s : string) : 0 <= len s.
Proof. unfold len. lia. Qed.

(** C6.  In every configuration that [ParseDSN] returns, the
    external-authentication flag is true exactly when the username, the
    password and the connect string are all empty.  The three lengths are
    added as Go [int]s; strings that fit in memory keep the sum below
    2^63. *)
Theorem ParseDSN_external_authentication :
  forall (P : Package) (s : string) (d : DSN.t),
    Parse.ParseDSN s = Ok d ->
    len (DSN.Username d) + len (DSN.Password d) + len (DSN.Connect d)
    < 2 ^ 63 ->
    (DSN.externalauthentication d = true
     <-> DSN.Username d = "" /\ DSN.Password d = "" /\ DSN.Connect d = "").
Proof.
  intros P s d Hok Hfit.
  destruct (ParseFacts.ParseDSN_ok _ _ Hok)
    as (d0 & d1 & Hloop & -> & _ & _ & _ & _ & _ & Hext0).
  destruct (ParseFacts.rangeParams_ok _ _ _ Hloop) as (_ & _ & _ & Hext & _).
  rewrite Hext0 in Hext.
  destruct (ParseFacts.markExternal_fields d1) as (HU & HP & HC & _).
  rewrite HU, HP, HC in *. clear HU HP HC.
  pose proof (len_nonneg (DSN.Username d1)) as HU.
  pose proof (len_nonneg (DSN.Password d1)) as HP.
  pose proof (len_nonneg (DSN.Connect d1)) as HC.
  unfold Parse.markExternal.
  rewrite (PlaceholdersFacts.wrap_int_small
             (len (DSN.Username d1) + len (DSN.Password d1))) by lia.
  rewrite PlaceholdersFacts.wrap_int_small by lia.
  rewrite <- !len_zero.
  destruct (Z.eqb_spec
              (len (DSN.Username d1) + len (DSN.Password d1)
               + len (DSN.Connect d1)) 0) as [Hz | Hnz]; simpl.
  - split; [lia | reflexivity].
  - rewrite Hext. split; [discriminate | lia].
Qed.

Lemma ParseDSN_external_authentication_witness :
  (DSN.externalauthentication (Samples.cfg "" "" "" OCI_DEFAULT true) = true
   <-> "" = "" /\ "" = "" /\ "" = "")
  /\ (DSN.externalauthentication (Samples.cfg "u" "" "" OCI_DEFAULT false)
      = true
      <-> "u" = "" /\ "" = "" /\ "" = "").
Proof.
  split.
  - apply (ParseDSN_external_authentication Samples.session_package
             "oracle://@?").
    + vm_compute. reflexivity.
    + vm_compute. reflexivity.
  - apply (ParseDSN_external_authentication Samples.session_package
             "oracle://u/@?").
    + vm_compute. reflexivity.
    + vm_compute. reflexivity.
Defined.

(** C8.  In every configuration that [ParseDSN] returns, a setting whose
    parameter the query omits has its default: 10 prefetch rows, prefetch
    memory 0, the default privileged mode, the local time zone. *)
Theorem ParseDSN_defaults :
  forall (P : Package) (s : string) (d : DSN.t),
    Parse.ParseDSN s = Ok d ->
    (fst (Parse.dsnQuery s) !! "prefetch_rows" = None ->
     DSN.prefetchRows d = 10)
    /\ (fst (Parse.dsnQuery s) !! "prefetch_memory" = None ->
        DSN.prefetchMemory d = 0)
    /\ (fst (Parse.dsnQuery s) !! "as" = None ->
        DSN.operationMode d = OCI_DEFAULT)
    /\ (fst (Parse.dsnQuery s) !! "loc" = None ->
        DSN.Location d = time_Local).
Proof.
  intros P s d Hok.
  destruct (ParseFacts.ParseDSN_ok _ _ Hok)
    as (d0 & d1 & Hloop & -> & HR & HY & HM & HL & _).
  destruct (ParseFacts.rangeParams_ok _ _ _ Hloop)
    as (_ & _ & _ & _ & M & R & Y & L & _).
  destruct (ParseFacts.markExternal_fields d1)
    as (_ & _ & _ & -> & -> & -> & -> & _).
  repeat split; intros Habsent;
    apply ParseFacts.rangeOrder_absent in Habsent.
  - rewrite (R Habsent). exact HR.
  - rewrite (Y Habsent). exact HY.
  - rewrite (M Habsent). exact HM.
  - rewrite (L Habsent). exact HL.
Qed.

Lemma ParseDSN_defaults_witness :
  DSN.prefetchRows (Samples.cfg "u" "p" "host:1521/svc" OCI_DEFAULT false)
  = 10
  /\ DSN.prefetchMemory (Samples.cfg "u" "p" "host:1521/svc" OCI_DEFAULT false)
     = 0
  /\ DSN.operationMode (Samples.cfg "u" "p" "host:1521/svc" OCI_DEFAULT false)
     = OCI_DEFAULT
  /\ DSN.Location (Samples.cfg "u" "p" "host:1521/svc" OCI_DEFAULT false)
     = time_Local.
Proof.
  assert (Hok : Parse.ParseDSN (pkg := Samples.session_package)
                  "oracle://u/p@host:1521/svc?application=billing"
                = Ok (Samples.cfg "u" "p" "host:1521/svc" OCI_DEFAULT false))
    by (vm_compute; reflexivity).
  destruct (ParseDSN_defaults Samples.session_package _ _ Hok)
    as (R & Y & M & L).
  split; [| split; [| split]]; [apply R | apply Y | apply M | apply L];
    vm_compute; reflexivity.
Defined.

(** C9.  In every configuration that [ParseDSN] returns for a query
    without the parameter [questionph], the question-mark-placeholder flag
    is false. *)
Theorem ParseDSN_questionph_default :
  forall (P : Package) (s : string) (d : DSN.t),
    Parse.ParseDSN s = Ok d ->
    fst (Parse.dsnQuery s) !! "questionph" = None ->
    DSN.enableQMPlaceholders d = false.
Proof.
  intros P s d Hok Habsent.
  destruct (ParseFacts.ParseDSN_ok _ _ Hok)
    as (d0 & d1 & Hloop & -> & _ & _ & _ & _ & HQ & _).
  destruct (ParseFacts.rangeParams_ok _ _ _ Hloop)
    as (_ & _ & _ & _ & _ & _ & _ & _ & Q).
  destruct (ParseFacts.markExternal_fields d1)
    as (_ & _ & _ & _ & _ & _ & _ & ->).
  apply ParseFacts.rangeOrder_absent in Habsent.
  rewrite (Q Habsent). exact HQ.
Qed.

Lemma ParseDSN_questionph_default_witness :
  DSN.enableQMPlaceholders
    (DSN.mk "u" "p" "host" time_Local OCI_TRANS_READONLY false 10 0
       OCI_DEFAULT false)
  = false.
Proof.
  apply (ParseDSN_questionph_default Samples.session_package
           "u/p@host?isolation=READONLY").
  - vm_compute. reflexivity.
  - vm_compute. reflexivity.
Defined.

(** ** Open *)

Module LedgerFacts.
Import Ledger.

Lemma acquired_app (a b : list event) :
  acquired (a ++ b) = (acquired a ++ acquired b)%list.
Proof. apply omap_app. Qed.

Lemma held_app (a b : list event) (stack : list handle) :
  held stack (a ++ b)
  = match held stack a with
    | Some stack1 => held stack1 b
    | None => None
    end.
Proof.
  revert stack. induction a as [|e a IH]; intros stack; simpl.
  - reflexivity.
  - destruct (acquires e), (releases e); auto.
    destruct stack as [|top below]; auto.
    case_decide; auto.
Qed.

(** While nothing is released, the stack grows by what is acquired. *)
Lemma held_acquiring (steps : list event) (stack : list handle) :
  released steps = [] ->
  held stack steps = Some (rev (acquired steps) ++ stack)%list.
Proof.
  revert stack. induction steps as [|e steps IH]; intros stack Hrel.
  - reflexivity.
  - unfold released, acquired in *. simpl in *.
    destruct (releases e) eqn:Hr; [discriminate Hrel |].
    destruct (acquires e) as [h |] eqn:Ha.
    + rewrite (IH _ Hrel). simpl. now rewrite <- app_assoc.
    + apply IH, Hrel.
Qed.

(** Releasing a stack from its top empties it. *)
Lemma held_unwinding (hs stack : list handle) :
  held (hs ++ stack)%list (map free_of hs) = Some stack.
Proof.
  induction hs as [|[htype addr] hs IH]; simpl.
  - reflexivity.
  - case_decide; [exact IH | congruence].
Qed.

Lemma held_unwound (steps : list event) :
  released steps = [] ->
  held [] (steps ++ map free_of (rev (acquired steps))) = Some [].
Proof.
  intros Hrel. rewrite held_app, (held_acquiring _ _ Hrel).
  apply held_unwinding.
Qed.

End LedgerFacts.

Module DriverFacts.
Import Driver Ledger.

Lemma failed_info_false (st : Z) :
  failed_info st = false <-> st = OCI_SUCCESS \/ st = OCI_SUCCESS_WITH_INFO.
Proof.
  unfold failed_info.
  destruct (Z.eqb_spec st OCI_SUCCESS), (Z.eqb_spec st OCI_SUCCESS_WITH_INFO);
    simpl; intuition congruence.
Qed.

Lemma failed_false (st : Z) : failed st = false <-> st = OCI_SUCCESS.
Proof.
  unfold failed. destruct (Z.eqb_spec st OCI_SUCCESS); simpl;
    intuition congruence.
Qed.

(** Run a driver call symbolically: case analysis on every native result
    and every test, innermost first. *)
Ltac unfold_calls H :=
  unfold mbind, M_bind, mret, M_ret, C_WrapOCIEnvCreate,
    C_WrapOCIHandleAlloc, C_OCIHandleFree, C_WrapOCIServerAttach,
    C_OCIAttrSet, C_WrapOCISessionBegin, C_WrapOCILogon, C_OCITransCommit,
    C_OCITransRollback, conn_getError, call in H.

Ltac exec H :=
  repeat (simpl in H;
    match type of H with
    | context [match ?x with _ => _ end] =>
        lazymatch x with
        | context [match _ with _ => _ end] => fail
        | _ => let E := fresh "E" in destruct x eqn:E
        end
    end).

Ltac use_statuses :=
  repeat match goal with
         | E : failed _ = _ |- _ => rewrite E
         | E : failed_info _ = _ |- _ => rewrite E
         end.

Section WithEnvironment.
Context {pkg : Package} {World : Type} {native : Layer World}.

Lemma Open_failure_trace (oci8Driver : OCI8DriverStruct) (s : string)
    (st st' : state World) (res : result Conn.t) :
  Open oci8Driver s st = (res, st') ->
  is_ok res = false ->
  exists steps,
    trace st' = (trace st ++ steps
                 ++ map free_of (rev (acquired steps)))%list
    /\ released steps = [].
Proof.
  intros Hrun Hres. unfold Open, openSession, openLogon in Hrun.
  unfold_calls Hrun. exec Hrun; injection Hrun as <- <-;
    try discriminate Hres; simpl; rewrite <- ?app_assoc; simpl;
    lazymatch goal with
    | |- exists steps, (trace st ++ ?new)%list = _ /\ _ =>
        exists (List.filter (fun e => negb (is_release e)) new)
    | |- exists steps, trace st = _ /\ _ =>
        exists []; simpl; rewrite app_nil_r
    end;
    (split; [| reflexivity]);
    unfold acquired; simpl; use_statuses; reflexivity.
Qed.

Lemma app_cons_not_self {A} (l m : list A) (x : A) :
  l <> (l ++ x :: m)%list.
Proof.
  intros Heq. apply (f_equal length) in Heq.
  rewrite length_app in Heq. simpl in Heq. lia.
Qed.

(** The first native call of [Open] and what follows it. *)
Lemma Open_first_call (oci8Driver : OCI8DriverStruct) (s : string)
    (st st' : state World) (res : result Conn.t)
    (mode xtramem : Z) (r : ret) (post : list event) :
  Open oci8Driver s st = (res, st') ->
  trace st' = (trace st ++ EnvCreate mode xtramem r :: post)%list ->
  mode = Z.lor OCI_DEFAULT OCI_THREADED
  /\ (failed_info (rv r) = false ->
      (exists r2 rest,
          post = HandleAlloc (ptr r) OCI_HTYPE_ERROR 0 r2 :: rest)
      /\ forall conn, res = Ok conn -> Conn.env conn = ptr r)
  /\ (failed_info (rv r) = true ->
      post = [] /\ res = Err "can't OCIEnvCreate").
Proof.
  intros Hrun Htrace. unfold Open, openSession, openLogon in Hrun.
  unfold_calls Hrun. exec Hrun; injection Hrun as <- <-;
    simpl in Htrace; rewrite <- ?app_assoc in Htrace; simpl in Htrace;
    try (exfalso; exact (app_cons_not_self _ _ _ Htrace));
    apply app_inv_head in Htrace; simplify_eq;
    (split; [reflexivity |]); split; intros Hst;
    try congruence;
    try (split; [eauto | intros conn [= <-]; reflexivity]);
    try (split; [eauto | intros conn [=]]);
    try (split; reflexivity).
Qed.

(** The combined logon of the direct branch and what surrounds it. *)
Lemma Open_logon_call (oci8Driver : OCI8DriverStruct) (s : string)
    (st st' : state World) (res : result Conn.t)
    (pre post : list event) (envh errh : Z) (user pass host : string)
    (ulen plen hlen : Z) (r : ret) :
  useOCISessionBegin = false ->
  Open oci8Driver s st = (res, st') ->
  trace st'
  = (trace st ++ pre
     ++ Logon envh errh user ulen pass plen host hlen r :: post)%list ->
  acquired pre = [(OCI_HTYPE_ENV, envh); (OCI_HTYPE_ERROR, errh)]
  /\ (failed_info (rv r) = false ->
      post = []
      /\ exists conn,
          res = Ok conn /\ Conn.svc conn = ptr r
          /\ Conn.env conn = envh /\ Conn.errHandle conn = errh)
  /\ (failed_info (rv r) = true ->
      exists e,
        res = Err e
        /\ post = [GetError (rv r) e; HandleFree errh OCI_HTYPE_ERROR;
                   HandleFree envh OCI_HTYPE_ENV]).
Proof.
  intros Hswitch Hrun Htrace. unfold Open, openLogon in Hrun.
  rewrite Hswitch in Hrun.
  unfold_calls Hrun. exec Hrun; injection Hrun as <- <-;
    simpl in Htrace; rewrite <- ?app_assoc in Htrace; simpl in Htrace;
    try (exfalso; destruct pre;
         exact (app_cons_not_self _ _ _ Htrace));
    apply app_inv_head in Htrace;
    repeat (destruct pre as [|? pre]; simpl in Htrace;
            try discriminate Htrace;
            try match type of Htrace with
                | _ = (_ :: _ ++ _)%list => injection Htrace as <- Htrace
                end);
    injection Htrace as <- <- <- <- <- <- <- <- <- <-;
    (split; [unfold acquired; simpl; use_statuses; reflexivity |]);
    split; intros Hst; try congruence; eauto 10.
Qed.

(** [Commit] and [Rollback] differ in the native call only. *)
Lemma Commit_steps (tx : OCI8Tx) (c : Conn.t) (st st' : state World)
    (res : result unit) :
  heap st !! tx_conn tx = Some c ->
  Commit tx st = (res, st') ->
  heap st' = <[tx_conn tx := Conn.set_inTransaction false c]> (heap st)
  /\ exists status rest,
      trace st'
      = (trace st ++ SetInTransaction (tx_conn tx) false
         :: TransCommit (Conn.svc c) (Conn.errHandle c) 0 status
         :: rest)%list
      /\ (failed status = false -> res = Ok tt /\ rest = [])
      /\ (failed status = true ->
          exists e, res = Err e /\ rest = [GetError status e]).
Proof.
  intros Hconn Hrun. unfold Commit, setInTransaction in Hrun.
  unfold_calls Hrun. rewrite Hconn in Hrun.
  exec Hrun; injection Hrun as <- <-; simpl;
    (split; [reflexivity |]); rewrite <- ?app_assoc; simpl;
    do 2 eexists; (split; [reflexivity |]);
    split; intros Hst; try congruence; eauto.
Qed.

Lemma Rollback_steps (tx : OCI8Tx) (c : Conn.t) (st st' : state World)
    (res : result unit) :
  heap st !! tx_conn tx = Some c ->
  Rollback tx st = (res, st') ->
  heap st' = <[tx_conn tx := Conn.set_inTransaction false c]> (heap st)
  /\ exists status rest,
      trace st'
      = (trace st ++ SetInTransaction (tx_conn tx) false
         :: TransRollback (Conn.svc c) (Conn.errHandle c) 0 status
         :: rest)%list
      /\ (failed status = false -> res = Ok tt /\ rest = [])
      /\ (failed status = true ->
          exists e, res = Err e /\ rest = [GetError status e]).
Proof.
  intros Hconn Hrun. unfold Rollback, setInTransaction in Hrun.
  unfold_calls Hrun. rewrite Hconn in Hrun.
  exec Hrun; injection Hrun as <- <-; simpl;
    (split; [reflexivity |]); rewrite <- ?app_assoc; simpl;
    do 2 eexists; (split; [reflexivity |]);
    split; intros Hst; try congruence; eauto.
Qed.

End WithEnvironment.

End DriverFacts.

(** C1.  Whenever [Open] does not return a connection, whatever the native
    layer answers and whichever step fails, the native calls it has made
    are a run of steps without any release, followed by the release of
    exactly the handles those steps acquired, most recent first; replayed
    on a stack of held handles, every release names the handle on top and
    the stack ends empty. *)
Theorem Open_failure_unwinds :
  forall (P : Package) (World : Type) (L : Layer World)
         (oci8Driver : OCI8DriverStruct) (s : string)
         (st st' : state World) (res : result Conn.t),
    Driver.Open oci8Driver s st = (res, st') ->
    is_ok res = false ->
    exists steps,
      trace st' = (trace st ++ steps
                   ++ map Ledger.free_of (rev (Ledger.acquired steps)))%list
      /\ Ledger.released steps = []
      /\ Ledger.held []
           (steps ++ map Ledger.free_of (rev (Ledger.acquired steps)))
         = Some [].
Proof.
  intros P World L oci8Driver s st st' res Hrun Hres.
  destruct (DriverFacts.Open_failure_trace _ _ _ _ _ Hrun Hres)
    as (steps & Htrace & Hrel).
  exists steps. split; [exact Htrace |]. split; [exact Hrel |].
  apply LedgerFacts.held_unwound, Hrel.
Qed.

Lemma Open_failure_unwinds_witness :
  exists steps,
    trace (snd (Samples.open true "u/p@host?as=sysdba"
                  [0; 0; 0; 0; 0; 0; 0; 0; -1]))
    = (trace (Fake.start [0; 0; 0; 0; 0; 0; 0; 0; -1]) ++ steps
       ++ map Ledger.free_of (rev (Ledger.acquired steps)))%list
    /\ Ledger.released steps = []
    /\ Ledger.held []
         (steps ++ map Ledger.free_of (rev (Ledger.acquired steps)))
       = Some [].
Proof.
  apply (Open_failure_unwinds (SpecHelpers.package true) Fake.world Fake.layer
           Samples.driver "u/p@host?as=sysdba"
           (Fake.start [0; 0; 0; 0; 0; 0; 0; 0; -1]) _
           (fst (Samples.open true "u/p@host?as=sysdba"
                   [0; 0; 0; 0; 0; 0; 0; 0; -1]))).
  - apply surjective_pairing.
  - vm_compute. reflexivity.
Defined.

(** C10.  The first native call of [Open] creates the environment.  When
    its status is success or success-with-info, the next call allocates the
    error handle under the pointer it returned, and a connection that
    [Open] then returns holds that pointer as its environment handle; any
    other status ends [Open] at once, with no further native call, with
    the error "can't OCIEnvCreate". *)
Theorem Open_environment_creation :
  forall (P : Package) (World : Type) (L : Layer World)
         (oci8Driver : OCI8DriverStruct) (s : string)
         (st st' : state World) (res : result Conn.t)
         (mode xtramem : Z) (r : ret) (post : list event),
    Driver.Open oci8Driver s st = (res, st') ->
    trace st' = (trace st ++ EnvCreate mode xtramem r :: post)%list ->
    (rv r = OCI_SUCCESS \/ rv r = OCI_SUCCESS_WITH_INFO ->
     (exists r2 rest, post = HandleAlloc (ptr r) OCI_HTYPE_ERROR 0 r2 :: rest)
     /\ forall conn, res = Ok conn -> Conn.env conn = ptr r)
    /\ (rv r <> OCI_SUCCESS -> rv r <> OCI_SUCCESS_WITH_INFO ->
        post = [] /\ res = Err "can't OCIEnvCreate").
Proof.
  intros P World L oci8Driver s st st' res mode xtramem r post Hrun Htrace.
  destruct (DriverFacts.Open_first_call _ _ _ _ _ _ _ _ _ Hrun Htrace)
    as (_ & Hgood & Hbad).
  split.
  - intros Hst. apply Hgood, DriverFacts.failed_info_false, Hst.
  - intros Hne Hne'. apply Hbad.
    destruct (Driver.failed_info (rv r)) eqn:Hf; [reflexivity |].
    apply DriverFacts.failed_info_false in Hf. tauto.
Qed.

Lemma Open_environment_creation_witness :
  ((exists r2 rest,
       tail (trace (snd (Samples.open true "u/p@host?as=sysdba" [1])))
       = HandleAlloc 4096 OCI_HTYPE_ERROR 0 r2 :: rest)
   /\ forall conn,
       fst (Samples.open true "u/p@host?as=sysdba" [1]) = Ok conn ->
       Conn.env conn = 4096)
  /\ tail (trace (snd (Samples.open true "u/p@host?as=sysdba" [3]))) = []
  /\ fst (Samples.open true "u/p@host?as=sysdba" [3])
     = Err "can't OCIEnvCreate".
Proof.
  split.
  - apply (proj1 (Open_environment_creation
                    (SpecHelpers.package true) Fake.world Fake.layer
                    Samples.driver "u/p@host?as=sysdba" (Fake.start [1])
                    (snd (Samples.open true "u/p@host?as=sysdba" [1]))
                    (fst (Samples.open true "u/p@host?as=sysdba" [1]))
                    1 0 {| rv := 1; ptr := 4096 |}
                    (tail (trace (snd (Samples.open true "u/p@host?as=sysdba"
                                         [1]))))
                    (surjective_pairing _) eq_refl)).
    right. reflexivity.
  - apply (proj2 (Open_environment_creation
                    (SpecHelpers.package true) Fake.world Fake.layer
                    Samples.driver "u/p@host?as=sysdba" (Fake.start [3])
                    (snd (Samples.open true "u/p@host?as=sysdba" [3]))
                    (fst (Samples.open true "u/p@host?as=sysdba" [3]))
                    1 0 {| rv := 3; ptr := 0 |}
                    (tail (trace (snd (Samples.open true "u/p@host?as=sysdba"
                                         [3]))))
                    (surjective_pairing _) eq_refl)).
    + discriminate.
    + discriminate.
Defined.

(** C5.  In the direct-logon branch, the combined logon is made with the
    environment and error handles, the only handles acquired so far.  When
    its status is success or success-with-info it is the last native call,
    [Open] returns a connection, and the pointer it returned is the
    service-context handle of that connection; with any other status
    [Open] reads the native diagnostic, releases the error handle, then the
    environment handle, and returns the diagnostic as the error. *)
Theorem Open_direct_logon :
  forall (P : Package) (World : Type) (L : Layer World)
         (oci8Driver : OCI8DriverStruct) (s : string)
         (st st' : state World) (res : result Conn.t)
         (pre post : list event) (envh errh : Z) (user pass host : string)
         (ulen plen hlen : Z) (r : ret),
    useOCISessionBegin = false ->
    Driver.Open oci8Driver s st = (res, st') ->
    trace st'
    = (trace st ++ pre
       ++ Logon envh errh user ulen pass plen host hlen r :: post)%list ->
    Ledger.acquired pre = [(OCI_HTYPE_ENV, envh); (OCI_HTYPE_ERROR, errh)]
    /\ (rv r = OCI_SUCCESS \/ rv r = OCI_SUCCESS_WITH_INFO ->
        post = []
        /\ exists conn,
            res = Ok conn /\ Conn.svc conn = ptr r
            /\ Conn.env conn = envh /\ Conn.errHandle conn = errh)
    /\ (rv r <> OCI_SUCCESS -> rv r <> OCI_SUCCESS_WITH_INFO ->
        exists e,
          res = Err e
          /\ post = [GetError (rv r) e; HandleFree errh OCI_HTYPE_ERROR;
                     HandleFree envh OCI_HTYPE_ENV]).
Proof.
  intros P World L oci8Driver s st st' res pre post envh errh user pass host
    ulen plen hlen r Hswitch Hrun Htrace.
  destruct (DriverFacts.Open_logon_call _ _ _ _ _ _ _ _ _ _ _ _ _ _ _ _
              Hswitch Hrun Htrace) as (Hheld & Hgood & Hbad).
  split; [exact Hheld |]. split.
  - intros Hst. apply Hgood, DriverFacts.failed_info_false, Hst.
  - intros Hne Hne'. apply Hbad.
    destruct (Driver.failed_info (rv r)) eqn:Hf; [reflexivity |].
    apply DriverFacts.failed_info_false in Hf. tauto.
Qed.

Lemma Open_direct_logon_witness :
  (exists e,
      fst (Samples.open false "u/p@host?as=sysdba" [1; 0; -1]) = Err e
      /\ skipn 3 (trace (snd (Samples.open false "u/p@host?as=sysdba"
                                [1; 0; -1])))
         = [GetError (-1) e; HandleFree 4097 OCI_HTYPE_ERROR;
            HandleFree 4096 OCI_HTYPE_ENV])
  /\ skipn 3 (trace (snd (Samples.open false "u/p@host?as=sysdba" [0; 0; 1])))
     = []
  /\ exists conn,
      fst (Samples.open false "u/p@host?as=sysdba" [0; 0; 1]) = Ok conn
      /\ Conn.svc conn = 4098
      /\ Conn.env conn = 4096 /\ Conn.errHandle conn = 4097.
Proof.
  split.
  - assert (Htrace :
        trace (snd (Samples.open false "u/p@host?as=sysdba" [1; 0; -1]))
        = (trace (Fake.start [1; 0; -1])
           ++ firstn 2 (trace (snd (Samples.open false "u/p@host?as=sysdba"
                                      [1; 0; -1])))
           ++ Logon 4096 4097 "u" 1 "p" 1 "host" 4 {| rv := -1; ptr := 0 |}
              :: skipn 3 (trace (snd (Samples.open false "u/p@host?as=sysdba"
                                        [1; 0; -1]))))%list)
      by (vm_compute; reflexivity).
    apply (proj2 (proj2 (Open_direct_logon
             (SpecHelpers.package false) Fake.world Fake.layer
             Samples.driver "u/p@host?as=sysdba" (Fake.start [1; 0; -1])
             _ (fst (Samples.open false "u/p@host?as=sysdba" [1; 0; -1]))
             _ _ _ _ _ _ _ _ _ _ _
             eq_refl (surjective_pairing _) Htrace))).
    + discriminate.
    + discriminate.
  - assert (Htrace :
        trace (snd (Samples.open false "u/p@host?as=sysdba" [0; 0; 1]))
        = (trace (Fake.start [0; 0; 1])
           ++ firstn 2 (trace (snd (Samples.open false "u/p@host?as=sysdba"
                                      [0; 0; 1])))
           ++ Logon 4096 4097 "u" 1 "p" 1 "host" 4 {| rv := 1; ptr := 4098 |}
              :: skipn 3 (trace (snd (Samples.open false "u/p@host?as=sysdba"
                                        [0; 0; 1]))))%list)
      by (vm_compute; reflexivity).
    apply (proj1 (proj2 (Open_direct_logon
             (SpecHelpers.package false) Fake.world Fake.layer
             Samples.driver "u/p@host?as=sysdba" (Fake.start [0; 0; 1])
             _ (fst (Samples.open false "u/p@host?as=sysdba" [0; 0; 1]))
             _ _ _ _ _ _ _ _ _ _ _
             eq_refl (surjective_pairing _) Htrace))).
    right. reflexivity.
Defined.

(** ** Commit and Rollback *)

(** C4.  [Commit] and [Rollback] on a transaction of a live connection
    first write false to the in-transaction flag of that connection and
    then issue the native call, on the service-context and error handles
    of the connection.  Afterwards the flag is false whatever the native
    status: with the success status the result is nil and nothing else
    happens; with any other status the native diagnostic is read and
    returned as the error, and the flag stays false. *)
Theorem Commit_Rollback_clear_flag :
  forall (World : Type) (L : Layer World) (tx : OCI8Tx) (c : Conn.t)
         (st : state World),
    heap st !! tx_conn tx = Some c ->
    (forall res st',
        Driver.Commit tx st = (res, st') ->
        Conn.inTransaction <$> heap st' !! tx_conn tx = Some false
        /\ exists status rest,
            trace st'
            = (trace st ++ SetInTransaction (tx_conn tx) false
               :: TransCommit (Conn.svc c) (Conn.errHandle c) 0 status
               :: rest)%list
            /\ (status = OCI_SUCCESS -> res = Ok tt /\ rest = [])
            /\ (status <> OCI_SUCCESS ->
                exists e, res = Err e /\ rest = [GetError status e]))
    /\ (forall res st',
           Driver.Rollback tx st = (res, st') ->
           Conn.inTransaction <$> heap st' !! tx_conn tx = Some false
           /\ exists status rest,
               trace st'
               = (trace st ++ SetInTransaction (tx_conn tx) false
                  :: TransRollback (Conn.svc c) (Conn.errHandle c) 0 status
                  :: rest)%list
               /\ (status = OCI_SUCCESS -> res = Ok tt /\ rest = [])
               /\ (status <> OCI_SUCCESS ->
                   exists e, res = Err e /\ rest = [GetError status e])).
Proof.
  intros World L tx c st Hconn. split; intros res st' Hrun.
  - destruct (DriverFacts.Commit_steps _ _ _ _ _ Hconn Hrun)
      as (Hheap & status & rest & Htrace & Hgood & Hbad).
    split; [rewrite Hheap, lookup_insert_eq; reflexivity |].
    exists status, rest. split; [exact Htrace |]. split.
    + intros Hst. apply Hgood, DriverFacts.failed_false, Hst.
    + intros Hst. apply Hbad.
      destruct (Driver.failed status) eqn:Hf; [reflexivity |].
      apply DriverFacts.failed_false in Hf. contradiction.
  - destruct (DriverFacts.Rollback_steps _ _ _ _ _ Hconn Hrun)
      as (Hheap & status & rest & Htrace & Hgood & Hbad).
    split; [rewrite Hheap, lookup_insert_eq; reflexivity |].
    exists status, rest. split; [exact Htrace |]. split.
    + intros Hst. apply Hgood, DriverFacts.failed_false, Hst.
    + intros Hst. apply Hbad.
      destruct (Driver.failed status) eqn:Hf; [reflexivity |].
      apply DriverFacts.failed_false in Hf. contradiction.
Qed.

Lemma Commit_Rollback_clear_flag_witness :
  Conn.inTransaction
    <$> heap (snd (Driver.Commit (native := Fake.layer) Samples.tx
                     (Samples.in_transaction [-1]))) !! 64
  = Some false
  /\ Conn.inTransaction
       <$> heap (snd (Driver.Rollback (native := Fake.layer) Samples.tx
                        (Samples.in_transaction [-1]))) !! 64
     = Some false.
Proof.
  assert (Hconn : heap (Samples.in_transaction [-1]) !! tx_conn Samples.tx
                  = Some Samples.busy) by (vm_compute; reflexivity).
  split.
  - apply (proj1 (Commit_Rollback_clear_flag Fake.world Fake.layer
                    Samples.tx Samples.busy (Samples.in_transaction [-1])
                    Hconn)
             (fst (Driver.Commit (native := Fake.layer) Samples.tx
                     (Samples.in_transaction [-1])))
             _ (surjective_pairing _)).
  - apply (proj2 (Commit_Rollback_clear_flag Fake.world Fake.layer
                    Samples.tx Samples.busy (Samples.in_transaction [-1])
                    Hconn)
             (fst (Driver.Rollback (native := Fake.layer) Samples.tx
                     (Samples.in_transaction [-1])))
             _ (surjective_pairing _)).
Defined.

(** ** More on ParseDSN: the parameter loop *)

Module LoopFacts.
Import Parse Loop.

Lemma agree_refl {A : Type} (r : result A) : agree r r.
Proof. destruct r; simpl; auto. Qed.

Lemma agree_trans {A : Type} (r1 r2 r3 : result A) :
  agree r1 r2 -> agree r2 r3 -> agree r1 r3.
Proof. destruct r1, r2, r3; simpl; intros; try congruence; tauto. Qed.

Lemma apply_update_swap (u1 u2 : update) (d : DSN.t) :
  (forall k, update_key u1 = Some k -> update_key u2 = Some k -> False) ->
  apply_update u1 (apply_update u2 d) = apply_update u2 (apply_update u1 d).
Proof.
  intros Hkeys. destruct u1, u2; try reflexivity;
    exfalso; eapply Hkeys; reflexivity.
Qed.

Section WithPackage.
Context {pkg : Package}.

Ltac case_step :=
  match goal with
  | |- context [String.eqb ?a ?b] =>
      let E := fresh "E" in
      destruct (String.eqb a b) eqn:E;
      [apply String.eqb_eq in E | apply String.eqb_neq in E]
  | |- context [index0 ?v] => destruct v
  | |- context [time_LoadLocation ?x] => destruct (time_LoadLocation x)
  | |- context [ParseUint32 ?x] => destruct (ParseUint32 x)
  | |- context [match ?v with [] => _ | _ :: _ => _ end] => destruct v
  end; simpl.

(** A case of the switch is its write, applied to the configuration. *)
Lemma applyParam_update (k : string) (v : list string) (d : DSN.t) :
  applyParam k v d = (u ← paramUpdate k v; Ok (apply_update u d)).
Proof.
  unfold applyParam, paramUpdate. repeat case_step; reflexivity.
Qed.

Lemma paramUpdate_key (k : string) (v : list string) (u : update) :
  paramUpdate k v = Ok u -> update_key u = None \/ update_key u = Some k.
Proof.
  unfold paramUpdate. repeat case_step; intros Hu;
    try discriminate Hu; injection Hu as <-; simpl; subst; auto.
Qed.

Lemma paramUpdate_unrecognized (k : string) (v : list string) :
  recognized k = false -> paramUpdate k v = Ok NoUpdate.
Proof.
  unfold recognized, paramUpdate. simpl. intros Hk.
  repeat (let E := fresh "E" in
          apply orb_false_iff in Hk as [E Hk]; rewrite E).
  reflexivity.
Qed.

Lemma paramUpdate_first (k : string) (v : list string) :
  paramUpdate k (firstn 1 v) = paramUpdate k v.
Proof.
  unfold paramUpdate. destruct v as [|v0 rest]; reflexivity.
Qed.

(** Two iterations on different keys can be exchanged. *)
Lemma applyParam_swap (k1 k2 : string) (v1 v2 : list string) (d : DSN.t) :
  k1 <> k2 ->
  agree (d1 ← applyParam k1 v1 d; applyParam k2 v2 d1)
        (d1 ← applyParam k2 v2 d; applyParam k1 v1 d1).
Proof.
  intros Hne. rewrite (applyParam_update k1 v1 d), (applyParam_update k2 v2 d).
  destruct (paramUpdate k1 v1) as [u1 | |] eqn:H1;
    destruct (paramUpdate k2 v2) as [u2 | |] eqn:H2; simpl;
    rewrite ?applyParam_update, ?H1, ?H2; simpl; auto.
  apply apply_update_swap. intros k Hk2 Hk1.
  destruct (paramUpdate_key _ _ _ H1) as [E1 | E1];
    destruct (paramUpdate_key _ _ _ H2) as [E2 | E2]; congruence.
Qed.

Lemma rangeParams_agree_start (entries : list (string * list string))
    (r1 r2 : result DSN.t) :
  agree r1 r2 ->
  agree (d ← r1; rangeParams entries d) (d ← r2; rangeParams entries d).
Proof.
  destruct r1, r2; simpl; intros Hagree; try tauto.
  subst. apply agree_refl.
Qed.

(** The loop over two enumerations of the same entries. *)
Lemma rangeParams_perm (l1 l2 : list (string * list string)) :
  l1 ≡ₚ l2 -> NoDup l1.*1 ->
  forall d, agree (rangeParams l1 d) (rangeParams l2 d).
Proof.
  induction 1 as [| [k v] l1 l2 Hperm IH | [k1 v1] [k2 v2] l
                 | l1 l2 l3 H12 IH12 H23 IH23];
    intros Hnd d.
  - apply agree_refl.
  - simpl. apply NoDup_cons in Hnd as [_ Hnd].
    destruct (applyParam k v d); simpl; auto.
  - simpl. apply NoDup_cons in Hnd as [Hfresh _].
    assert (Hne : k2 <> k1).
    { intros ->. apply Hfresh. simpl. apply list_elem_of_here. }
    pose proof (rangeParams_agree_start l _ _
                  (applyParam_swap k2 k1 v2 v1 d Hne)) as Hswap.
    destruct (applyParam k1 v1 d) as [da | |] eqn:Ha;
      destruct (applyParam k2 v2 d) as [db | |] eqn:Hb;
      simpl in *; auto;
      try (destruct (applyParam k1 v1 db); simpl in *; tauto);
      try (destruct (applyParam k2 v2 da); simpl in *; tauto).
  - eapply agree_trans; [apply IH12, Hnd |].
    apply IH23. rewrite <- H12. exact Hnd.
Qed.

(** Dropping the entries without a case changes nothing. *)
Lemma rangeParams_recognized (entries : list (string * list string))
    (d : DSN.t) :
  rangeParams entries d
  = rangeParams (List.filter (fun kv => recognized (fst kv)) entries) d.
Proof.
  revert d. induction entries as [|[k v] rest IH]; intros d; [reflexivity |].
  simpl. destruct (recognized k) eqn:Hk; simpl.
  - destruct (applyParam k v d); simpl; auto.
  - rewrite applyParam_update, (paramUpdate_unrecognized _ _ Hk). simpl.
    apply IH.
Qed.

(** Only the first value of an entry is read. *)
Lemma rangeParams_first_values (entries : list (string * list string))
    (d : DSN.t) :
  rangeParams (first_values entries) d = rangeParams entries d.
Proof.
  revert d. induction entries as [|[k v] rest IH]; intros d; [reflexivity |].
  simpl. rewrite !applyParam_update, paramUpdate_first.
  destruct (paramUpdate k v); simpl; auto.
Qed.

End WithPackage.

End LoopFacts.

Module ParseMoreFacts.
Import Parse Loop.

Lemma markExternal_transactionMode {pkg : Package} (d : DSN.t) :
  DSN.transactionMode (markExternal d) = DSN.transactionMode d.
Proof. unfold markExternal. destruct (_ =? _)%Z; reflexivity. Qed.

Section WithPackage.
Context {pkg : Package}.

Lemma rangeParams_transactionMode (entries : list (string * list string))
    (d d1 : DSN.t) :
  "isolation" ∉ entries.*1 ->
  rangeParams entries d = Ok d1 ->
  DSN.transactionMode d1 = DSN.transactionMode d.
Proof.
  revert d. induction entries as [|[k v] rest IH]; intros d Hnot Hok.
  - injection Hok as <-. reflexivity.
  - simpl in Hok. apply not_elem_of_cons in Hnot as [Hk Hrest]. simpl in Hk.
    rewrite LoopFacts.applyParam_update in Hok.
    destruct (paramUpdate k v) as [u | |] eqn:Hu; try discriminate Hok.
    simpl in Hok. rewrite (IH _ Hrest Hok).
    destruct (LoopFacts.paramUpdate_key _ _ _ Hu) as [Hkey | Hkey];
      destruct u; simpl in *; congruence.
Qed.

(** What a successful parse went through, with the configuration the
    loop starts from. *)
Lemma ParseDSN_run (s : string) (d : DSN.t) :
  ParseDSN s = Ok d ->
  exists u p c d1,
    (if String.eqb (fst (dsnAuthority s)) "" then (u, p) = ("", "")
     else parseAuthority (fst (dsnAuthority s)) = Ok (u, p))
    /\ unescape (fst (dsnHostParams s)) encodeHost = Ok c
    /\ rangeParams (rangeOrder (fst (dsnQuery s)))
         (DSN.mk u p c time_Local 0 false 10 0 OCI_DEFAULT false)
       = Ok d1
    /\ d = markExternal d1.
Proof.
  unfold ParseDSN. intros Hok.
  destruct (String.eqb s ""); [discriminate |].
  destruct (dsnAuthority s) as [authority rest0].
  destruct (dsnHostParams s) as [host params].
  destruct (dsnQuery s) as [qp qerr]. simpl.
  destruct (String.eqb authority "").
  - simpl in Hok.
    destruct (unescape host encodeHost) as [c | |]; try discriminate.
    simpl in Hok.
    match type of Hok with
    | context [rangeParams ?l ?d0] =>
        destruct (rangeParams l d0) as [d1 | |] eqn:Hloop; try discriminate
    end.
    simpl in Hok. injection Hok as <-.
    exists "", "", c, d1. auto.
  - destruct (parseAuthority authority) as [[u p] | |]; try discriminate.
    simpl in Hok.
    destruct (unescape host encodeHost) as [c | |]; try discriminate.
    simpl in Hok.
    match type of Hok with
    | context [rangeParams ?l ?d0] =>
        destruct (rangeParams l d0) as [d1 | |] eqn:Hloop; try discriminate
    end.
    simpl in Hok. injection Hok as <-.
    exists u, p, c, d1. auto.
Qed.

(** The entry of a key present in the query is applied, and no later
    iteration has its key. *)
Lemma ParseDSN_visits (k : string) (v : list string) (s : string)
    (d : DSN.t) :
  fst (dsnQuery s) !! k = Some v ->
  ParseDSN s = Ok d ->
  exists u da d1 later,
    paramUpdate k v = Ok u
    /\ rangeParams later (apply_update u da) = Ok d1
    /\ (k ∉ later.*1)
    /\ d = markExternal d1.
Proof.
  intros Hk Hok.
  destruct (ParseFacts.ParseDSN_ok _ _ Hok) as (d0 & d1 & Hloop & -> & _).
  apply ParseFacts.rangeOrder_elem in Hk.
  destruct (ParseFacts.rangeParams_visits _ _ _ _ _
              (ParseFacts.rangeOrder_NoDup _) Hk Hloop)
    as (da & db & later & Hstep & Hlater & Hfresh).
  rewrite LoopFacts.applyParam_update in Hstep.
  destruct (paramUpdate k v) as [u | |] eqn:Hu; try discriminate Hstep.
  injection Hstep as <-. exists u, da, d1, later. auto.
Qed.

(** A key whose case fails for every configuration fails the parse. *)
Lemma ParseDSN_rejects (k : string) (v : list string) (s : string) :
  fst (dsnQuery s) !! k = Some v ->
  is_ok (paramUpdate k v) = false ->
  is_ok (ParseDSN s) = false.
Proof.
  intros Hk Hbad.
  destruct (ParseDSN s) as [d | |] eqn:Hok; try reflexivity. exfalso.
  destruct (ParseDSN_visits _ _ _ _ Hk Hok) as (u & _ & _ & _ & Hu & _).
  rewrite Hu in Hbad. discriminate Hbad.
Qed.

End WithPackage.

End ParseMoreFacts.

(** X1.  When the query has the parameter [isolation], a successful parse
    means its first value is exactly [READONLY], [SERIALIZABLE] or
    [DEFAULT], and the transaction mode of the configuration is the
    read-only, serializable or read-write mode accordingly; for any other
    first value, lower case included, the case returns the error "Invalid
    isolation: <value>" and the parse does not succeed. *)
Theorem ParseDSN_isolation :
  forall (P : Package) (s v0 : string) (rest : list string),
    fst (Parse.dsnQuery s) !! "isolation" = Some (v0 :: rest) ->
    (forall d, Parse.ParseDSN s = Ok d ->
       (v0 = "READONLY" /\ DSN.transactionMode d = OCI_TRANS_READONLY)
       \/ (v0 = "SERIALIZABLE"
           /\ DSN.transactionMode d = OCI_TRANS_SERIALIZABLE)
       \/ (v0 = "DEFAULT" /\ DSN.transactionMode d = OCI_TRANS_READWRITE))
    /\ (v0 ∉ ["READONLY"; "SERIALIZABLE"; "DEFAULT"] ->
        is_ok (Parse.ParseDSN s) = false
        /\ forall d, Parse.applyParam "isolation" (v0 :: rest) d
                     = Err ("Invalid isolation: " ++ v0)).
Proof.
  intros P s v0 rest Hk. split.
  - intros d Hok.
    destruct (ParseMoreFacts.ParseDSN_visits _ _ _ _ Hk Hok)
      as (u & da & d1 & later & Hu & Hlater & Hfresh & ->).
    rewrite ParseMoreFacts.markExternal_transactionMode.
    rewrite (ParseMoreFacts.rangeParams_transactionMode _ _ _ Hfresh Hlater).
    unfold Loop.paramUpdate in Hu. simpl in Hu.
    destruct (String.eqb_spec v0 "READONLY") as [-> |];
      [injection Hu as <-; auto |].
    destruct (String.eqb_spec v0 "SERIALIZABLE") as [-> |];
      [injection Hu as <-; auto |].
    destruct (String.eqb_spec v0 "DEFAULT") as [-> |];
      [injection Hu as <-; auto 6 | discriminate Hu].
  - intros Hnot.
    assert (Hbad : Loop.paramUpdate "isolation" (v0 :: rest)
                   = Err ("Invalid isolation: " ++ v0)).
    { unfold Loop.paramUpdate. simpl.
      repeat match goal with
             | |- context [String.eqb v0 ?x] =>
                 let E := fresh "E" in
                 destruct (String.eqb v0 x) eqn:E;
                 [apply String.eqb_eq in E; subst v0; exfalso; apply Hnot;
                  repeat first [apply list_elem_of_here
                               | apply list_elem_of_further] |]
             end.
      reflexivity. }
    split.
    + apply (ParseMoreFacts.ParseDSN_rejects _ _ _ Hk). now rewrite Hbad.
    + intros d. rewrite LoopFacts.applyParam_update, Hbad. reflexivity.
Qed.

Lemma ParseDSN_isolation_witness :
  (("SERIALIZABLE" = "READONLY"
    /\ DSN.transactionMode
         (DSN.mk "u" "p" "host" time_Local OCI_TRANS_SERIALIZABLE false 10 0
            OCI_DEFAULT false)
       = OCI_TRANS_READONLY)
   \/ ("SERIALIZABLE" = "SERIALIZABLE"
       /\ DSN.transactionMode
            (DSN.mk "u" "p" "host" time_Local OCI_TRANS_SERIALIZABLE false
               10 0 OCI_DEFAULT false)
          = OCI_TRANS_SERIALIZABLE)
   \/ ("SERIALIZABLE" = "DEFAULT"
       /\ DSN.transactionMode
            (DSN.mk "u" "p" "host" time_Local OCI_TRANS_SERIALIZABLE false
               10 0 OCI_DEFAULT false)
          = OCI_TRANS_READWRITE))
  /\ is_ok (Parse.ParseDSN (pkg := Samples.session_package)
              "u/p@host?isolation=serializable") = false.
Proof.
  split.
  - apply (proj1 (ParseDSN_isolation Samples.session_package
                    "u/p@host?isolation=SERIALIZABLE" "SERIALIZABLE" []
                    eq_refl)).
    vm_compute. reflexivity.
  - apply (proj2 (ParseDSN_isolation Samples.session_package
                    "u/p@host?isolation=serializable" "serializable" []
                    eq_refl)).
    intros Hin.
    repeat (apply elem_of_cons in Hin as [Hin | Hin]; [discriminate Hin |]).
    inversion Hin.
Defined.

(** X2.  When the query has no parameter [isolation], the transaction
    mode of the configuration is 0, Go's zero value: it is not the
    read-write mode that [isolation=DEFAULT] selects, nor any of the other
    two modes. *)
Theorem ParseDSN_isolation_absent :
  forall (P : Package) (s : string) (d : DSN.t),
    Parse.ParseDSN s = Ok d ->
    fst (Parse.dsnQuery s) !! "isolation" = None ->
    DSN.transactionMode d = 0
    /\ DSN.transactionMode d <> OCI_TRANS_READWRITE
    /\ DSN.transactionMode d <> OCI_TRANS_READONLY
    /\ DSN.transactionMode d <> OCI_TRANS_SERIALIZABLE.
Proof.
  intros P s d Hok Habsent.
  destruct (ParseMoreFacts.ParseDSN_run _ _ Hok)
    as (u & p & c & d1 & _ & _ & Hloop & ->).
  apply ParseFacts.rangeOrder_absent in Habsent.
  rewrite ParseMoreFacts.markExternal_transactionMode.
  rewrite (ParseMoreFacts.rangeParams_transactionMode _ _ _ Habsent Hloop).
  simpl. repeat split; discriminate.
Qed.

Lemma ParseDSN_isolation_absent_witness :
  DSN.transactionMode (Samples.cfg "u" "p" "host" OCI_SYSDBA false) = 0
  /\ DSN.transactionMode (Samples.cfg "u" "p" "host" OCI_SYSDBA false)
     <> OCI_TRANS_READWRITE
  /\ DSN.transactionMode (Samples.cfg "u" "p" "host" OCI_SYSDBA false)
     <> OCI_TRANS_READONLY
  /\ DSN.transactionMode (Samples.cfg "u" "p" "host" OCI_SYSDBA false)
     <> OCI_TRANS_SERIALIZABLE.
Proof.
  apply (ParseDSN_isolation_absent Samples.session_package
           "u/p@host?as=sysdba").
  - vm_compute. reflexivity.
  - vm_compute. reflexivity.
Defined.

(** X3.  When the query has the parameter [questionph], a successful
    parse means its first value is exactly [YES] or [TRUE], and the
    placeholder flag is true, or exactly [NO] or [FALSE], and the flag is
    false; for any other first value the case returns the error "Invalid
    questionpm: <value>" and the parse does not succeed. *)
Theorem ParseDSN_questionph :
  forall (P : Package) (s v0 : string) (rest : list string),
    fst (Parse.dsnQuery s) !! "questionph" = Some (v0 :: rest) ->
    (forall d, Parse.ParseDSN s = Ok d ->
       ((v0 = "YES" \/ v0 = "TRUE") /\ DSN.enableQMPlaceholders d = true)
       \/ ((v0 = "NO" \/ v0 = "FALSE")
           /\ DSN.enableQMPlaceholders d = false))
    /\ (v0 ∉ ["YES"; "TRUE"; "NO"; "FALSE"] ->
        is_ok (Parse.ParseDSN s) = false
        /\ forall d, Parse.applyParam "questionph" (v0 :: rest) d
                     = Err ("Invalid questionpm: " ++ v0)).
Proof.
  intros P s v0 rest Hk. split.
  - intros d Hok.
    destruct (ParseMoreFacts.ParseDSN_visits _ _ _ _ Hk Hok)
      as (u & da & d1 & later & Hu & Hlater & Hfresh & ->).
    destruct (ParseFacts.markExternal_fields d1)
      as (_ & _ & _ & _ & _ & _ & _ & ->).
    destruct (ParseFacts.rangeParams_ok _ _ _ Hlater)
      as (_ & _ & _ & _ & _ & _ & _ & _ & Q).
    rewrite (Q Hfresh). clear Q.
    unfold Loop.paramUpdate in Hu. simpl in Hu.
    destruct (String.eqb_spec v0 "YES") as [-> |];
      [injection Hu as <-; auto |].
    destruct (String.eqb_spec v0 "TRUE") as [-> |];
      [injection Hu as <-; auto |].
    destruct (String.eqb_spec v0 "NO") as [-> |];
      [injection Hu as <-; auto |].
    destruct (String.eqb_spec v0 "FALSE") as [-> |];
      [injection Hu as <-; auto | discriminate Hu].
  - intros Hnot.
    assert (Hbad : Loop.paramUpdate "questionph" (v0 :: rest)
                   = Err ("Invalid questionpm: " ++ v0)).
    { unfold Loop.paramUpdate. simpl.
      repeat match goal with
             | |- context [String.eqb v0 ?x] =>
                 let E := fresh "E" in
                 destruct (String.eqb v0 x) eqn:E;
                 [apply String.eqb_eq in E; subst v0; exfalso; apply Hnot;
                  repeat first [apply list_elem_of_here
                               | apply list_elem_of_further] |]
             end.
      reflexivity. }
    split.
    + apply (ParseMoreFacts.ParseDSN_rejects _ _ _ Hk). now rewrite Hbad.
    + intros d. rewrite LoopFacts.applyParam_update, Hbad. reflexivity.
Qed.

Lemma ParseDSN_questionph_witness :
  ((("TRUE" = "YES" \/ "TRUE" = "TRUE")
    /\ DSN.enableQMPlaceholders
         (DSN.mk "u" "p" "host" time_Local 0 true 10 0 OCI_DEFAULT false)
       = true)
   \/ (("TRUE" = "NO" \/ "TRUE" = "FALSE")
       /\ DSN.enableQMPlaceholders
            (DSN.mk "u" "p" "host" time_Local 0 true 10 0 OCI_DEFAULT false)
          = false))
  /\ is_ok (Parse.ParseDSN (pkg := Samples.session_package)
              "u/p@host?questionph=1") = false.
Proof.
  split.
  - apply (proj1 (ParseDSN_questionph Samples.session_package
                    "u/p@host?questionph=TRUE" "TRUE" [] eq_refl)).
    vm_compute. reflexivity.
  - apply (proj2 (ParseDSN_questionph Samples.session_package
                    "u/p@host?questionph=1" "1" [] eq_refl)).
    intros Hin.
    repeat (apply elem_of_cons in Hin as [Hin | Hin]; [discriminate Hin |]).
    inversion Hin.
Defined.

Lemma digits_value_nonneg (s : string) (acc z : Z) :
  0 <= acc -> Parse.digits_value acc s = Some z -> 0 <= z.
Proof.
  revert acc. induction s as [|c s IH]; intros acc Hacc Hz; simpl in Hz.
  - injection Hz as <-. exact Hacc.
  - unfold Parse.digit_value in Hz.
    destruct ((48 <=? Z.of_N (N_of_ascii c))%Z
              && (Z.of_N (N_of_ascii c) <=? 57)%Z)%bool eqn:Hd;
      [| discriminate Hz].
    apply andb_true_iff in Hd as [Hlo Hhi].
    apply Z.leb_le in Hlo.
    eapply IH; [| exact Hz]. lia.
Qed.

Lemma ParseUint32_range (s : string) (z : Z) :
  Parse.ParseUint32 s = Ok z -> 0 <= z < 2 ^ 32.
Proof.
  unfold Parse.ParseUint32. destruct s as [|c s]; [discriminate |].
  destruct (Parse.digits_value 0 (String c s)) as [n |] eqn:Hn;
    [| discriminate].
  destruct (Z.ltb_spec n (2 ^ 32)); [| discriminate].
  intros [= <-]. split; [| assumption].
  apply (digits_value_nonneg (String c s) 0 n); [lia | exact Hn].
Qed.

(** X4.  When the query has the parameter [prefetch_rows], the prefetch
    row count of a successful parse is the number that its first value
    denotes as an unsigned 32-bit decimal; when the first value is not
    such a number the case returns "invalid prefetch_rows: <value>" and
    the parse does not succeed.  The same holds for [prefetch_memory] and
    the prefetch memory size. *)
Theorem ParseDSN_prefetch :
  forall (P : Package) (s v0 : string) (rest : list string),
    (fst (Parse.dsnQuery s) !! "prefetch_rows" = Some (v0 :: rest) ->
     (forall d, Parse.ParseDSN s = Ok d ->
                Parse.ParseUint32 v0 = Ok (DSN.prefetchRows d))
     /\ (is_ok (Parse.ParseUint32 v0) = false ->
         is_ok (Parse.ParseDSN s) = false
         /\ forall d, Parse.applyParam "prefetch_rows" (v0 :: rest) d
                      = Err ("invalid prefetch_rows: " ++ v0)))
    /\ (fst (Parse.dsnQuery s) !! "prefetch_memory" = Some (v0 :: rest) ->
        (forall d, Parse.ParseDSN s = Ok d ->
                   Parse.ParseUint32 v0 = Ok (DSN.prefetchMemory d))
        /\ (is_ok (Parse.ParseUint32 v0) = false ->
            is_ok (Parse.ParseDSN s) = false
            /\ forall d, Parse.applyParam "prefetch_memory" (v0 :: rest) d
                         = Err ("invalid prefetch_memory: " ++ v0))).
Proof.
  intros P s v0 rest. split; intros Hk; split.
  - intros d Hok.
    destruct (ParseMoreFacts.ParseDSN_visits _ _ _ _ Hk Hok)
      as (u & da & d1 & later & Hu & Hlater & Hfresh & ->).
    destruct (ParseFacts.markExternal_fields d1)
      as (_ & _ & _ & _ & -> & _).
    destruct (ParseFacts.rangeParams_ok _ _ _ Hlater)
      as (_ & _ & _ & _ & _ & R & _).
    rewrite (R Hfresh). clear R.
    unfold Loop.paramUpdate in Hu. simpl in Hu.
    destruct (Parse.ParseUint32 v0) as [z | |] eqn:Hz; try discriminate Hu.
    injection Hu as <-. simpl. unfold ub4.
    rewrite Z.mod_small by (apply (ParseUint32_range _ _ Hz)). reflexivity.
  - intros Hbad.
    assert (Hu : Loop.paramUpdate "prefetch_rows" (v0 :: rest)
                 = Err ("invalid prefetch_rows: " ++ v0)).
    { unfold Loop.paramUpdate. simpl.
      destruct (Parse.ParseUint32 v0); [discriminate Hbad | |]; reflexivity. }
    split.
    + apply (ParseMoreFacts.ParseDSN_rejects _ _ _ Hk). now rewrite Hu.
    + intros d. rewrite LoopFacts.applyParam_update, Hu. reflexivity.
  - intros d Hok.
    destruct (ParseMoreFacts.ParseDSN_visits _ _ _ _ Hk Hok)
      as (u & da & d1 & later & Hu & Hlater & Hfresh & ->).
    destruct (ParseFacts.markExternal_fields d1)
      as (_ & _ & _ & _ & _ & -> & _).
    destruct (ParseFacts.rangeParams_ok _ _ _ Hlater)
      as (_ & _ & _ & _ & _ & _ & Y & _).
    rewrite (Y Hfresh). clear Y.
    unfold Loop.paramUpdate in Hu. simpl in Hu.
    destruct (Parse.ParseUint32 v0) as [z | |] eqn:Hz; try discriminate Hu.
    injection Hu as <-. simpl. unfold ub4.
    rewrite Z.mod_small by (apply (ParseUint32_range _ _ Hz)). reflexivity.
  - intros Hbad.
    assert (Hu : Loop.paramUpdate "prefetch_memory" (v0 :: rest)
                 = Err ("invalid prefetch_memory: " ++ v0)).
    { unfold Loop.paramUpdate. simpl.
      destruct (Parse.ParseUint32 v0); [discriminate Hbad | |]; reflexivity. }
    split.
    + apply (ParseMoreFacts.ParseDSN_rejects _ _ _ Hk). now rewrite Hu.
    + intros d. rewrite LoopFacts.applyParam_update, Hu. reflexivity.
Qed.

Lemma ParseDSN_prefetch_witness :
  Parse.ParseUint32 "4294967295"
  = Ok (DSN.prefetchRows
          (DSN.mk "u" "p" "host" time_Local 0 false 4294967295 0 OCI_DEFAULT
             false))
  /\ is_ok (Parse.ParseDSN (pkg := Samples.session_package)
              "u/p@host?prefetch_memory=4294967296") = false.
Proof.
  split.
  - apply (proj1 (proj1 (ParseDSN_prefetch Samples.session_package
                           "u/p@host?prefetch_rows=4294967295"
                           "4294967295" []) eq_refl)).
    vm_compute. reflexivity.
  - apply (proj2 (proj2 (ParseDSN_prefetch Samples.session_package
                           "u/p@host?prefetch_memory=4294967296"
                           "4294967296" []) eq_refl)).
    vm_compute. reflexivity.
Defined.

(** X5.  In every configuration that [ParseDSN] returns, whatever the
    query holds, the prefetch row count and the prefetch memory size are
    unsigned 32-bit values. *)
Theorem ParseDSN_prefetch_bounds :
  forall (P : Package) (s : string) (d : DSN.t),
    Parse.ParseDSN s = Ok d ->
    0 <= DSN.prefetchRows d < 2 ^ 32
    /\ 0 <= DSN.prefetchMemory d < 2 ^ 32.
Proof.
  intros P s d Hok. split.
  - destruct (fst (Parse.dsnQuery s) !! "prefetch_rows") as [v |] eqn:Hk.
    + destruct (ParseMoreFacts.ParseDSN_visits _ _ _ _ Hk Hok)
        as (u & da & d1 & later & Hu & Hlater & Hfresh & ->).
      destruct (ParseFacts.markExternal_fields d1)
        as (_ & _ & _ & _ & -> & _).
      destruct (ParseFacts.rangeParams_ok _ _ _ Hlater)
        as (_ & _ & _ & _ & _ & R & _).
      rewrite (R Hfresh). clear R.
      unfold Loop.paramUpdate in Hu. simpl in Hu.
      destruct v as [|v0 rest]; [discriminate Hu |]. simpl in Hu.
      destruct (Parse.ParseUint32 v0) as [z | |]; try discriminate Hu.
      injection Hu as <-. simpl. unfold ub4. apply Z.mod_pos_bound. lia.
    + destruct (ParseFacts.ParseDSN_ok _ _ Hok)
        as (d0 & d1 & Hloop & -> & HR & _).
      destruct (ParseFacts.markExternal_fields d1)
        as (_ & _ & _ & _ & -> & _).
      destruct (ParseFacts.rangeParams_ok _ _ _ Hloop)
        as (_ & _ & _ & _ & _ & R & _).
      rewrite (R (ParseFacts.rangeOrder_absent _ _ Hk)), HR. lia.
  - destruct (fst (Parse.dsnQuery s) !! "prefetch_memory") as [v |] eqn:Hk.
    + destruct (ParseMoreFacts.ParseDSN_visits _ _ _ _ Hk Hok)
        as (u & da & d1 & later & Hu & Hlater & Hfresh & ->).
      destruct (ParseFacts.markExternal_fields d1)
        as (_ & _ & _ & _ & _ & -> & _).
      destruct (ParseFacts.rangeParams_ok _ _ _ Hlater)
        as (_ & _ & _ & _ & _ & _ & Y & _).
      rewrite (Y Hfresh). clear Y.
      unfold Loop.paramUpdate in Hu. simpl in Hu.
      destruct v as [|v0 rest]; [discriminate Hu |]. simpl in Hu.
      destruct (Parse.ParseUint32 v0) as [z | |]; try discriminate Hu.
      injection Hu as <-. simpl. unfold ub4. apply Z.mod_pos_bound. lia.
    + destruct (ParseFacts.ParseDSN_ok _ _ Hok)
        as (d0 & d1 & Hloop & -> & _ & HY & _).
      destruct (ParseFacts.markExternal_fields d1)
        as (_ & _ & _ & _ & _ & -> & _).
      destruct (ParseFacts.rangeParams_ok _ _ _ Hloop)
        as (_ & _ & _ & _ & _ & _ & Y & _).
      rewrite (Y (ParseFacts.rangeOrder_absent _ _ Hk)), HY. lia.
Qed.

Lemma ParseDSN_prefetch_bounds_witness :
  0 <= DSN.prefetchRows
         (DSN.mk "u" "p" "host" time_Local 0 false 20 7 OCI_DEFAULT false)
    < 2 ^ 32
  /\ 0 <= DSN.prefetchMemory
            (DSN.mk "u" "p" "host" time_Local 0 false 20 7 OCI_DEFAULT false)
       < 2 ^ 32.
Proof.
  apply (ParseDSN_prefetch_bounds Samples.session_package
           "u/p@host?prefetch_rows=20&prefetch_memory=007").
  vm_compute. reflexivity.
Defined.

(** X6.  When the query has the parameter [loc] with a first value, the
    time zone of a successful parse is the one [time.LoadLocation] returns
    for that value; when [time.LoadLocation] fails with an error, the case
    returns "Invalid loc: <value>: <error>" and the parse does not
    succeed. *)
Theorem ParseDSN_loc :
  forall (P : Package) (s v0 : string) (rest : list string),
    fst (Parse.dsnQuery s) !! "loc" = Some (v0 :: rest) ->
    (forall d, Parse.ParseDSN s = Ok d ->
               time_LoadLocation v0 = Ok (DSN.Location d))
    /\ (forall e, time_LoadLocation v0 = Err e ->
          is_ok (Parse.ParseDSN s) = false
          /\ forall d, Parse.applyParam "loc" (v0 :: rest) d
                       = Err ("Invalid loc: " ++ v0 ++ ": " ++ e)).
Proof.
  intros P s v0 rest Hk. split.
  - intros d Hok.
    destruct (ParseMoreFacts.ParseDSN_visits _ _ _ _ Hk Hok)
      as (u & da & d1 & later & Hu & Hlater & Hfresh & ->).
    destruct (ParseFacts.markExternal_fields d1)
      as (_ & _ & _ & _ & _ & _ & -> & _).
    destruct (ParseFacts.rangeParams_ok _ _ _ Hlater)
      as (_ & _ & _ & _ & _ & _ & _ & L & _).
    rewrite (L Hfresh). clear L.
    unfold Loop.paramUpdate in Hu. simpl in Hu.
    destruct (time_LoadLocation v0) as [l | |]; try discriminate Hu.
    injection Hu as <-. reflexivity.
  - intros e Hfail.
    assert (Hu : Loop.paramUpdate "loc" (v0 :: rest)
                 = Err ("Invalid loc: " ++ v0 ++ ": " ++ e)).
    { unfold Loop.paramUpdate. simpl. rewrite Hfail. reflexivity. }
    split.
    + apply (ParseMoreFacts.ParseDSN_rejects _ _ _ Hk). now rewrite Hu.
    + intros d. rewrite LoopFacts.applyParam_update, Hu. reflexivity.
Qed.

Lemma ParseDSN_loc_witness :
  time_LoadLocation (Package := Samples.session_package) "America/Phoenix"
  = Ok (DSN.Location
          (DSN.mk "u" "p" "host" {| zoneName := "America/Phoenix" |} 0 false
             10 0 OCI_DEFAULT false))
  /\ is_ok (Parse.ParseDSN (pkg := Samples.session_package)
              "u/p@host?loc=Mars%2FOlympus") = false.
Proof.
  split.
  - apply (proj1 (ParseDSN_loc Samples.session_package
                    "u/p@host?loc=America%2FPhoenix" "America/Phoenix" []
                    eq_refl)).
    vm_compute. reflexivity.
  - apply (proj2 (ParseDSN_loc Samples.session_package
                    "u/p@host?loc=Mars%2FOlympus" "Mars/Olympus" [] eq_refl)
             "unknown time zone Mars/Olympus").
    vm_compute. reflexivity.
Defined.

Module QueryFacts.
Import Parse Loop.

Lemma filter_keys (f : string * list string -> bool)
    (l : list (string * list string)) (k : string) :
  k ∈ (List.filter f l).*1 -> k ∈ l.*1.
Proof.
  induction l as [|x l IH]; simpl; [auto |].
  destruct (f x); simpl; rewrite ?elem_of_cons; intuition.
Qed.

Lemma filter_keys_NoDup (f : string * list string -> bool)
    (l : list (string * list string)) :
  NoDup l.*1 -> NoDup (List.filter f l).*1.
Proof.
  induction l as [|x l IH]; simpl; intros Hnd; [constructor |].
  apply NoDup_cons in Hnd as [Hfresh Hnd].
  destruct (f x); simpl; auto.
  apply NoDup_cons. split; auto.
  intros Hin. apply Hfresh. eapply filter_keys, Hin.
Qed.

Lemma first_values_keys (l : list (string * list string)) :
  (first_values l).*1 = l.*1.
Proof.
  unfold first_values. induction l as [|x l IH]; [reflexivity |].
  cbn [map]. rewrite !fmap_cons. cbn [fst]. f_equal. exact IH.
Qed.

Section WithPackage.
Context {pkg : Package}.

(** The parse with another query mapping and another order of iteration:
    the outcomes agree when the two loops do. *)
Lemma ParseDSN_loops (query : string -> gmap string (list string)
                                * option string)
    (order : gmap string (list string) -> list (string * list string))
    (Hperm : forall m, order m ≡ₚ map_to_list m) (s : string) :
  (forall d,
      agree (rangeParams (rangeOrder (fst (dsnQuery s))) d)
            (rangeParams (order (fst (query (snd (dsnHostParams s))))) d)) ->
  agree (ParseDSN s)
        (ParseDSN (pkg := Build_Package splitRight parseAuthority unescape
                            query time_LoadLocation useOCISessionBegin
                            order Hperm) s).
Proof.
  intros Hloops. unfold ParseDSN, dsnQuery, dsnHostParams, dsnAuthority in *.
  simpl in *.
  destruct (String.eqb s ""); [exact I |].
  destruct (splitRight (stripPrefix s) "@") as [authority rest0]. simpl in *.
  destruct (splitRight rest0 "?") as [host params]. simpl in *.
  destruct (ParseQuery params) as [qp qerr].
  destruct (query params) as [qp2 qerr2]. simpl in *.
  destruct (String.eqb authority "").
  - simpl. destruct (unescape host encodeHost) as [c | |]; simpl; auto.
    match goal with
    | |- context [rangeParams (rangeOrder qp) ?d0] =>
        specialize (Hloops d0);
        destruct (rangeParams (rangeOrder qp) d0)
    end;
    match goal with
    | |- context [rangeParams (order qp2) ?d0] =>
        destruct (rangeParams (order qp2) d0)
    end; simpl in *; try tauto. now subst.
  - destruct (parseAuthority authority) as [[u p] | |]; simpl; auto.
    destruct (unescape host encodeHost) as [c | |]; simpl; auto.
    match goal with
    | |- context [rangeParams (rangeOrder qp) ?d0] =>
        specialize (Hloops d0);
        destruct (rangeParams (rangeOrder qp) d0)
    end;
    match goal with
    | |- context [rangeParams (order qp2) ?d0] =>
        destruct (rangeParams (order qp2) d0)
    end; simpl in *; try tauto. now subst.
Qed.

(** The loop reads a mapping through its entries with a case only. *)
Lemma rangeParams_same_recognized (m1 m2 : gmap string (list string))
    (d : DSN.t) :
  (forall k, recognized k = true -> m1 !! k = m2 !! k) ->
  agree (rangeParams (rangeOrder m1) d) (rangeParams (rangeOrder m2) d).
Proof.
  intros Hsame.
  rewrite (LoopFacts.rangeParams_recognized (rangeOrder m1)),
          (LoopFacts.rangeParams_recognized (rangeOrder m2)).
  apply LoopFacts.rangeParams_perm.
  - apply NoDup_Permutation.
    + apply (NoDup_fmap_1 fst), filter_keys_NoDup, ParseFacts.rangeOrder_NoDup.
    + apply (NoDup_fmap_1 fst), filter_keys_NoDup, ParseFacts.rangeOrder_NoDup.
    + intros [k v]. rewrite !list_elem_of_In, !filter_In, <- !list_elem_of_In.
      rewrite !ParseFacts.rangeOrder_elem. simpl.
      split; intros [Hk Hrec]; split; auto; rewrite Hsame in *; auto.
  - apply filter_keys_NoDup, ParseFacts.rangeOrder_NoDup.
Qed.

Lemma rangeParams_take_first (m : gmap string (list string)) (d : DSN.t) :
  agree (rangeParams (rangeOrder m) d)
        (rangeParams (rangeOrder (firstn 1 <$> m)) d).
Proof.
  rewrite <- (LoopFacts.rangeParams_first_values (rangeOrder m)).
  apply LoopFacts.rangeParams_perm.
  - apply NoDup_Permutation.
    + apply (NoDup_fmap_1 fst). rewrite first_values_keys.
      apply ParseFacts.rangeOrder_NoDup.
    + apply (NoDup_fmap_1 fst), ParseFacts.rangeOrder_NoDup.
    + intros [k v]. rewrite ParseFacts.rangeOrder_elem, lookup_fmap.
      unfold first_values. rewrite list_elem_of_fmap. split.
      * intros ([k' v'] & [= -> ->] & Hin).
        apply ParseFacts.rangeOrder_elem in Hin. now rewrite Hin.
      * intros Hv. destruct (m !! k) as [v' |] eqn:Hk; [| discriminate Hv].
        injection Hv as <-. exists (k, v'). split; [reflexivity |].
        now apply ParseFacts.rangeOrder_elem.
  - rewrite first_values_keys. apply ParseFacts.rangeOrder_NoDup.
Qed.

End WithPackage.

End QueryFacts.

(** X7.  [ParseDSN] reads the parsed query through the six keys that the
    switch has a case for: with any other [ParseQuery] whose mapping has
    the same entries for those six keys, the parse succeeds with the same
    configuration or fails as well.  Parameters under other names are
    ignored. *)
Theorem ParseDSN_reads_recognized_only :
  forall (P : Package)
         (query : string -> gmap string (list string) * option string)
         (s : string),
    (forall text k, Loop.recognized k = true ->
                    fst (query text) !! k = fst (ParseQuery text) !! k) ->
    Loop.agree (Parse.ParseDSN (pkg := P) s)
               (Parse.ParseDSN (pkg := Loop.with_query P query) s).
Proof.
  intros P query s Hsame. unfold Loop.with_query.
  apply QueryFacts.ParseDSN_loops. intros d.
  apply QueryFacts.rangeParams_same_recognized.
  intros k Hk. symmetry. apply Hsame, Hk.
Qed.

Lemma ParseDSN_reads_recognized_only_witness :
  Loop.agree
    (Parse.ParseDSN (pkg := Samples.session_package)
       "u/p@host?application=billing&as=sysoper")
    (Parse.ParseDSN
       (pkg := Loop.with_query Samples.session_package
                 (Loop.without_key Samples.session_package "application"))
       "u/p@host?application=billing&as=sysoper").
Proof.
  apply (ParseDSN_reads_recognized_only Samples.session_package).
  intros text k Hk. unfold Loop.without_key. simpl.
  apply lookup_delete_ne. intros <-. discriminate Hk.
Defined.

(** X8.  [ParseDSN] reads only the first value of each parameter: with a
    [ParseQuery] that keeps the first value of every entry and drops the
    others, the parse succeeds with the same configuration or fails as
    well. *)
Theorem ParseDSN_reads_first_value :
  forall (P : Package) (s : string),
    Loop.agree (Parse.ParseDSN (pkg := P) s)
               (Parse.ParseDSN
                  (pkg := Loop.with_query P (Loop.first_value_only P)) s).
Proof.
  intros P s. unfold Loop.with_query.
  apply QueryFacts.ParseDSN_loops. intros d.
  apply QueryFacts.rangeParams_take_first.
Qed.

Lemma backwards_perm (m : gmap string (list string)) :
  Loop.backwards m ≡ₚ map_to_list m.
Proof. unfold Loop.backwards. symmetry. apply Permutation_rev. Qed.

(** X9.  The order in which the loop visits the parsed query does not
    change the outcome of [ParseDSN]: for any two orders of iteration the
    parse succeeds with the same configuration, or fails in both (the
    error reported may be a different one). *)
Theorem ParseDSN_order_independent :
  forall (P : Package)
         (order : gmap string (list string) -> list (string * list string))
         (Hperm : forall m, order m ≡ₚ map_to_list m) (s : string),
    Loop.agree (Parse.ParseDSN (pkg := P) s)
               (Parse.ParseDSN (pkg := Loop.with_range_order P order Hperm) s).
Proof.
  intros P order Hperm s. unfold Loop.with_range_order.
  apply QueryFacts.ParseDSN_loops. intros d.
  apply LoopFacts.rangeParams_perm.
  - rewrite rangeOrder_perm, Hperm. reflexivity.
  - apply ParseFacts.rangeOrder_NoDup.
Qed.

Lemma ParseDSN_order_independent_witness :
  Loop.agree
    (Parse.ParseDSN (pkg := Samples.session_package)
       "u/p@host?loc=UTC&isolation=READONLY&as=sysasm&prefetch_rows=5")
    (Parse.ParseDSN
       (pkg := Loop.with_range_order Samples.session_package Loop.backwards
                 backwards_perm)
       "u/p@host?loc=UTC&isolation=READONLY&as=sysasm&prefetch_rows=5").
Proof.
  apply (ParseDSN_order_independent Samples.session_package Loop.backwards
           backwards_perm).
Defined.

Lemma substring_all (s : string) :
  String.substring 0 (String.length s) s = s.
Proof. induction s as [|c s IH]; simpl; [reflexivity | now rewrite IH]. Qed.

Lemma stripPrefix_scheme (s : string) :
  Parse.stripPrefix ("oracle://" ++ s) = s.
Proof.
  rewrite !PlaceholdersFacts.append_cons, PlaceholdersFacts.append_nil.
  unfold Parse.stripPrefix, Parse.prefix. simpl.
  replace (String.prefix "" s) with true by (destruct s; reflexivity).
  rewrite Nat.sub_0_r. apply substring_all.
Qed.

(** X10.  The scheme prefix [oracle://] is optional: for a non-empty
    connection string that does not itself start with the prefix,
    [ParseDSN] gives the same result with the prefix in front of it as
    without. *)
Theorem ParseDSN_scheme_prefix :
  forall (P : Package) (s : string),
    s <> "" ->
    String.prefix "oracle://" s = false ->
    Parse.ParseDSN ("oracle://" ++ s) = Parse.ParseDSN s.
Proof.
  intros P s Hs Hplain.
  assert (Hstrip : Parse.stripPrefix s = s).
  { unfold Parse.stripPrefix, Parse.prefix. now rewrite Hplain. }
  unfold Parse.ParseDSN, Parse.dsnQuery, Parse.dsnHostParams,
    Parse.dsnAuthority.
  rewrite stripPrefix_scheme, Hstrip.
  apply String.eqb_neq in Hs. rewrite Hs.
  rewrite !PlaceholdersFacts.append_cons. reflexivity.
Qed.

Lemma ParseDSN_scheme_prefix_witness :
  Parse.ParseDSN (pkg := Samples.session_package)
    ("oracle://" ++ "u/p@host:1521/svc?as=sysdba")
  = Parse.ParseDSN (pkg := Samples.session_package)
      "u/p@host:1521/svc?as=sysdba".
Proof.
  apply (ParseDSN_scheme_prefix Samples.session_package).
  - discriminate.
  - reflexivity.
Defined.

(** X11.  In a configuration that [ParseDSN] returns, the connect string
    is the decoded host part of the input, and the username and password
    are what [parseAuthority] returns for the authority part, or both
    empty when there is no authority part; no query parameter changes
    them. *)
Theorem ParseDSN_credentials_and_host :
  forall (P : Package) (s : string) (d : DSN.t),
    Parse.ParseDSN s = Ok d ->
    unescape (fst (Parse.dsnHostParams s)) encodeHost = Ok (DSN.Connect d)
    /\ (fst (Parse.dsnAuthority s) = "" ->
        DSN.Username d = "" /\ DSN.Password d = "")
    /\ (fst (Parse.dsnAuthority s) <> "" ->
        parseAuthority (fst (Parse.dsnAuthority s))
        = Ok (DSN.Username d, DSN.Password d)).
Proof.
  intros P s d Hok.
  destruct (ParseMoreFacts.ParseDSN_run _ _ Hok)
    as (u & p & c & d1 & Hauth & Hhost & Hloop & ->).
  destruct (ParseFacts.markExternal_fields d1) as (-> & -> & -> & _).
  destruct (ParseFacts.rangeParams_ok _ _ _ Hloop) as (-> & -> & -> & _).
  simpl. split; [exact Hhost |]. split; intros Ha.
  - rewrite Ha in Hauth. simpl in Hauth. now injection Hauth as -> ->.
  - apply String.eqb_neq in Ha. rewrite Ha in Hauth. exact Hauth.
Qed.

Lemma ParseDSN_credentials_and_host_witness :
  unescape (Package := Samples.session_package)
    (fst (Parse.dsnHostParams (pkg := Samples.session_package)
            "scott/ti%40ger@db%2Eexample:1521/orcl?prefetch_rows=50"))
    encodeHost
  = Ok (DSN.Connect
          (DSN.mk "scott" "ti@ger" "db.example:1521/orcl" time_Local 0 false
             50 0 OCI_DEFAULT false))
  /\ parseAuthority (Package := Samples.session_package)
       (fst (Parse.dsnAuthority (pkg := Samples.session_package)
               "scott/ti%40ger@db%2Eexample:1521/orcl?prefetch_rows=50"))
     = Ok ("scott", "ti@ger").
Proof.
  assert (Hok : Parse.ParseDSN (pkg := Samples.session_package)
                  "scott/ti%40ger@db%2Eexample:1521/orcl?prefetch_rows=50"
                = Ok (DSN.mk "scott" "ti@ger" "db.example:1521/orcl"
                        time_Local 0 false 50 0 OCI_DEFAULT false))
    by (vm_compute; reflexivity).
  destruct (ParseDSN_credentials_and_host Samples.session_package _ _ Hok)
    as (Hhost & _ & Hauth).
  split; [exact Hhost |].
  apply Hauth. vm_compute. discriminate.
Defined.

(** ** More on Open *)

Module LadderFacts.
Import Driver Ledger Ladder DriverFacts.

Ltac exec_goal :=
  repeat (simpl;
    match goal with
    | |- context [snd ?x] =>
        lazymatch x with
        | context [match _ with _ => _ end] => fail
        | context [snd _] => fail
        | _ => let E := fresh "E" in destruct x eqn:E
        end
    | |- context [match ?x with _ => _ end] =>
        lazymatch x with
        | context [match _ with _ => _ end] => fail
        | _ => let E := fresh "E" in destruct x eqn:E
        end
    end).

Section WithEnvironment.
Context {pkg : Package} {World : Type} {native : Layer World}.

Lemma Open_without_configuration (oci8Driver : OCI8DriverStruct)
    (s : string) (st st' : state World) (res : result Conn.t) :
  Open oci8Driver s st = (res, st') ->
  (forall e, Parse.ParseDSN s = Err e -> res = Err e /\ st' = st)
  /\ (forall dsn, Parse.ParseDSN s = Ok dsn ->
        exists r post,
          trace st'
          = (trace st
             ++ EnvCreate (Z.lor OCI_DEFAULT OCI_THREADED) 0 r :: post)%list).
Proof.
  intros Hrun. split.
  - intros e Hparse. unfold Open in Hrun. rewrite Hparse in Hrun.
    injection Hrun as <- <-. auto.
  - intros dsn Hparse. unfold Open, openSession, openLogon in Hrun.
    rewrite Hparse in Hrun. unfold_calls Hrun.
    exec Hrun; injection Hrun as <- <-; simpl; rewrite <- ?app_assoc; simpl;
      eauto.
Qed.

Lemma Open_success (oci8Driver : OCI8DriverStruct) (s : string)
    (st st' : state World) (conn : Conn.t) :
  Open oci8Driver s st = (Ok conn, st') ->
  exists dsn new,
    Parse.ParseDSN s = Ok dsn
    /\ trace st' = (trace st ++ new)%list
    /\ released new = []
    /\ acquired new
       = (if useOCISessionBegin then session_handles conn
          else logon_handles conn)
    /\ (useOCISessionBegin = false ->
        Conn.srv conn = 0 /\ Conn.usrSession conn = 0)
    /\ Conn.location conn = Some (DSN.Location dsn)
    /\ Conn.transactionMode conn = DSN.transactionMode dsn
    /\ Conn.prefetchRows conn = DSN.prefetchRows dsn
    /\ Conn.prefetchMemory conn = DSN.prefetchMemory dsn
    /\ Conn.enableQMPlaceholders conn = DSN.enableQMPlaceholders dsn
    /\ Conn.operationMode conn = DSN.operationMode dsn
    /\ Conn.inTransaction conn = false
    /\ Conn.logger conn
       = Some (default discardLogger (driverLogger oci8Driver)).
Proof.
  intros Hrun. unfold Open, openSession, openLogon in Hrun.
  unfold_calls Hrun.
  exec Hrun; try discriminate Hrun; injection Hrun as <- <-;
    simpl; rewrite <- ?app_assoc; simpl;
    do 2 eexists; (split; [reflexivity |]); (split; [reflexivity |]);
    (split; [reflexivity |]);
    (split; [unfold acquired, session_handles, logon_handles; simpl;
             use_statuses; reflexivity |]);
    (split; [intros Hsw; first [congruence | split; reflexivity] |]);
    repeat split;
    match goal with
    | E : driverLogger _ = _ |- _ => rewrite E; reflexivity
    end.
Qed.

Lemma Open_silence (oci8Driver : OCI8DriverStruct) (s : string)
    (st : state World) :
  Open (native := silence native) oci8Driver s st = Open oci8Driver s st.
Proof.
  unfold Open, openSession, openLogon.
  unfold mbind, M_bind, mret, M_ret, C_WrapOCIEnvCreate,
    C_WrapOCIHandleAlloc, C_OCIHandleFree, C_WrapOCIServerAttach,
    C_OCIAttrSet, C_WrapOCISessionBegin, C_WrapOCILogon, conn_getError, call.
  exec_goal; reflexivity.
Qed.

Lemma app_self_nil {A} (l m : list A) : l = (l ++ m)%list -> m = [].
Proof.
  intros Heq. destruct m as [|x m]; [reflexivity |].
  exfalso. exact (app_cons_not_self _ _ _ Heq).
Qed.

Ltac new_events Htrace new :=
  simpl in Htrace; rewrite <- ?app_assoc in Htrace; simpl in Htrace;
  first [apply app_inv_head in Htrace | apply app_self_nil in Htrace];
  subst new.

Ltac use_ext :=
  repeat match goal with
         | E : DSN.externalauthentication _ = _ |- _ => rewrite E
         end.

Ltac settle :=
  use_ext; repeat split; intros; try reflexivity; try assumption;
  try match goal with
      | Hc : _ = _ |- _ => vm_compute in Hc; discriminate Hc
      end.

Ltac each_event Hin :=
  simpl in Hin;
  repeat (destruct Hin as [Hin | Hin];
          [try discriminate Hin; try (injection Hin; intros; subst; settle)
          |]);
  try contradiction.

(** The arguments of the calls of the session branch. *)
Lemma Open_session_arguments (oci8Driver : OCI8DriverStruct) (s : string)
    (dsn : DSN.t) (st st' : state World) (res : result Conn.t)
    (new : list event) :
  Parse.ParseDSN s = Ok dsn ->
  Open oci8Driver s st = (res, st') ->
  trace st' = (trace st ++ new)%list ->
  (forall srvh errh dblink dblen mode,
      In (ServerAttach srvh errh dblink dblen mode) new ->
      mode = OCI_DEFAULT
      /\ (dblink, dblen)
         = if DSN.externalauthentication dsn then (None, 0)
           else (Some (DSN.Connect dsn), ub4 (len (DSN.Connect dsn))))
  /\ (forall svch errh usrh cred mode,
         In (SessionBegin svch errh usrh cred mode) new ->
         mode = DSN.operationMode dsn
         /\ cred = if DSN.externalauthentication dsn then OCI_CRED_EXT
                   else OCI_CRED_RDBMS)
  /\ (forall target ttype value size attr errh status,
         In (AttrSet target ttype value size attr errh status) new ->
         (attr = OCI_ATTR_USERNAME ->
          DSN.externalauthentication dsn = false
          /\ value = VText (DSN.Username dsn)
          /\ size = ub4 (len (DSN.Username dsn)))
         /\ (attr = OCI_ATTR_PASSWORD ->
             DSN.externalauthentication dsn = false
             /\ value = VText (DSN.Password dsn)
             /\ size = ub4 (len (DSN.Password dsn)))).
Proof.
  intros Hparse Hrun Htrace. unfold Open, openSession, openLogon in Hrun.
  rewrite Hparse in Hrun. unfold_calls Hrun.
  exec Hrun; injection Hrun as <- <-; new_events Htrace new;
    (split; [| split]); intros *; intros Hin; each_event Hin.
Qed.

(** The calls of the direct-logon branch. *)
Lemma Open_direct_calls (oci8Driver : OCI8DriverStruct) (s : string)
    (st st' : state World) (res : result Conn.t) (new : list event) :
  useOCISessionBegin = false ->
  Open oci8Driver s st = (res, st') ->
  trace st' = (trace st ++ new)%list ->
  forall ev, In ev new -> direct_call ev = true.
Proof.
  intros Hswitch Hrun Htrace. unfold Open, openLogon in Hrun.
  rewrite Hswitch in Hrun. unfold_calls Hrun.
  exec Hrun; injection Hrun as <- <-; new_events Htrace new;
    intros ev Hin; simpl in Hin;
    repeat (destruct Hin as [<- | Hin]; [reflexivity |]);
    contradiction.
Qed.

(** The ladder stops at the first call that is rejected. *)
Lemma Open_first_rejection (oci8Driver : OCI8DriverStruct) (s : string)
    (st st' : state World) (res : result Conn.t) (new : list event) :
  Open oci8Driver s st = (res, st') ->
  trace st' = (trace st ++ new)%list ->
  (is_ok res = true ->
   forall ev, In ev new -> rejected ev = false /\ cleanup ev = false)
  /\ (is_ok res = false -> is_ok (Parse.ParseDSN s) = true ->
      exists pre ev post,
        new = (pre ++ ev :: post)%list
        /\ rejected ev = true
        /\ (forall x, In x pre -> rejected x = false /\ cleanup x = false)
        /\ (forall x, In x post -> cleanup x = true)).
Proof.
  intros Hrun Htrace. unfold Open, openSession, openLogon in Hrun.
  unfold_calls Hrun.
  exec Hrun; injection Hrun as <- <-; new_events Htrace new;
    (split; [intros Hres; try discriminate Hres;
             intros ev Hin; simpl in Hin;
             repeat (destruct Hin as [<- | Hin];
                     [simpl; use_statuses; split; reflexivity |]);
             contradiction
            | intros Hres Hparse; try discriminate Hres;
              try discriminate Hparse]);
    match goal with
    | |- exists pre ev post, ?l = _ /\ _ =>
        exists (List.removelast
                  (List.filter (fun x => negb (cleanup x)) l)),
               (List.last (List.filter (fun x => negb (cleanup x)) l)
                  (HandleFree 0 0)),
               (List.filter cleanup l)
    end;
    simpl; (split; [reflexivity |]); (split; [assumption |]);
    split; intros x Hin;
    repeat (destruct Hin as [<- | Hin];
            [simpl; use_statuses; first [split; reflexivity | reflexivity] |]);
    contradiction.
Qed.

End WithEnvironment.

End LadderFacts.

(** X12.  When the connection string does not parse, [Open] returns the
    error of [ParseDSN] and leaves the native layer untouched: no call is
    made.  When it parses, the first native call creates the environment
    in threaded mode. *)
Theorem Open_without_configuration_makes_no_call :
  forall (P : Package) (World : Type) (L : Layer World)
         (oci8Driver : OCI8DriverStruct) (s : string)
         (st st' : state World) (res : result Conn.t),
    Driver.Open oci8Driver s st = (res, st') ->
    (forall e, Parse.ParseDSN s = Err e -> res = Err e /\ st' = st)
    /\ (forall dsn, Parse.ParseDSN s = Ok dsn ->
          exists r post,
            trace st'
            = (trace st
               ++ EnvCreate (Z.lor OCI_DEFAULT OCI_THREADED) 0 r
                  :: post)%list).
Proof.
  intros P World L oci8Driver s st st' res Hrun.
  exact (LadderFacts.Open_without_configuration _ _ _ _ _ Hrun).
Qed.

Lemma Open_without_configuration_makes_no_call_witness :
  fst (Samples.open true "" [-1]) = Err "empty dsn"
  /\ snd (Samples.open true "" [-1]) = Fake.start [-1].
Proof.
  apply (proj1 (Open_without_configuration_makes_no_call
                  (SpecHelpers.package true) Fake.world Fake.layer
                  Samples.driver "" (Fake.start [-1]) _ _
                  (surjective_pairing _)) "empty dsn").
  reflexivity.
Defined.

(** X13.  When [Open] returns a connection, no handle has been released,
    and the handles acquired are exactly those the connection holds, in
    the order of the ladder: environment, error, server, service context
    and session in the session branch; environment, error and service
    context in the direct branch, where the server and session handles of
    the connection stay nil. *)
Theorem Open_success_holds_acquired_handles :
  forall (P : Package) (World : Type) (L : Layer World)
         (oci8Driver : OCI8DriverStruct) (s : string)
         (st st' : state World) (conn : Conn.t),
    Driver.Open oci8Driver s st = (Ok conn, st') ->
    exists new,
      trace st' = (trace st ++ new)%list
      /\ Ledger.released new = []
      /\ Ledger.acquired new
         = (if useOCISessionBegin then Ladder.session_handles conn
            else Ladder.logon_handles conn)
      /\ (useOCISessionBegin = false ->
          Conn.srv conn = 0 /\ Conn.usrSession conn = 0).
Proof.
  intros P World L oci8Driver s st st' conn Hrun.
  destruct (LadderFacts.Open_success _ _ _ _ _ Hrun)
    as (dsn & new & _ & Htrace & Hrel & Hacq & Hnil & _).
  exists new. auto.
Qed.

Lemma Open_success_holds_acquired_handles_witness :
  exists new,
    trace (snd Runs.sysdba) = (trace (Fake.start []) ++ new)%list
    /\ Ledger.released new = []
    /\ Ledger.acquired new
       = (if useOCISessionBegin (Package := SpecHelpers.package true)
          then Ladder.session_handles (Runs.conn_of Runs.sysdba)
          else Ladder.logon_handles (Runs.conn_of Runs.sysdba))
    /\ (useOCISessionBegin (Package := SpecHelpers.package true) = false ->
        Conn.srv (Runs.conn_of Runs.sysdba) = 0
        /\ Conn.usrSession (Runs.conn_of Runs.sysdba) = 0).
Proof.
  apply (Open_success_holds_acquired_handles (SpecHelpers.package true)
           Fake.world Fake.layer Samples.driver "u/p@host?as=sysdba"
           (Fake.start [])).
  vm_compute. reflexivity.
Defined.

(** X14.  A connection that [Open] returns carries the settings of the
    parsed configuration: time zone, transaction mode, prefetch rows,
    prefetch memory, placeholder flag and privileged mode.  It is not in a
    transaction, and its logger is the driver's, or the discarding logger
    when the driver has none. *)
Theorem Open_success_copies_settings :
  forall (P : Package) (World : Type) (L : Layer World)
         (oci8Driver : OCI8DriverStruct) (s : string)
         (st st' : state World) (conn : Conn.t),
    Driver.Open oci8Driver s st = (Ok conn, st') ->
    exists dsn,
      Parse.ParseDSN s = Ok dsn
      /\ Conn.location conn = Some (DSN.Location dsn)
      /\ Conn.transactionMode conn = DSN.transactionMode dsn
      /\ Conn.prefetchRows conn = DSN.prefetchRows dsn
      /\ Conn.prefetchMemory conn = DSN.prefetchMemory dsn
      /\ Conn.enableQMPlaceholders conn = DSN.enableQMPlaceholders dsn
      /\ Conn.operationMode conn = DSN.operationMode dsn
      /\ Conn.inTransaction conn = false
      /\ Conn.logger conn
         = Some (default discardLogger (driverLogger oci8Driver)).
Proof.
  intros P World L oci8Driver s st st' conn Hrun.
  destruct (LadderFacts.Open_success _ _ _ _ _ Hrun)
    as (dsn & new & Hparse & _ & _ & _ & _ & Hrest).
  exists dsn. auto.
Qed.

Lemma Open_success_copies_settings_witness :
  exists dsn,
    Parse.ParseDSN (pkg := SpecHelpers.package false) "u/p@host?as=sysdba"
    = Ok dsn
    /\ Conn.location (Runs.conn_of Runs.direct) = Some (DSN.Location dsn)
    /\ Conn.transactionMode (Runs.conn_of Runs.direct)
       = DSN.transactionMode dsn
    /\ Conn.prefetchRows (Runs.conn_of Runs.direct) = DSN.prefetchRows dsn
    /\ Conn.prefetchMemory (Runs.conn_of Runs.direct) = DSN.prefetchMemory dsn
    /\ Conn.enableQMPlaceholders (Runs.conn_of Runs.direct)
       = DSN.enableQMPlaceholders dsn
    /\ Conn.operationMode (Runs.conn_of Runs.direct) = DSN.operationMode dsn
    /\ Conn.inTransaction (Runs.conn_of Runs.direct) = false
    /\ Conn.logger (Runs.conn_of Runs.direct)
       = Some (default discardLogger (driverLogger Samples.driver)).
Proof.
  apply (Open_success_copies_settings (SpecHelpers.package false)
           Fake.world Fake.layer Samples.driver "u/p@host?as=sysdba"
           (Fake.start [0; 0; 1]) (snd Runs.direct)).
  vm_compute. reflexivity.
Defined.

(** X15.  In any run of [Open] on a configuration that parsed: a server
    attach is made in default mode, without a host string when the
    configuration uses external authentication and with the connect string
    and its length otherwise; a session begin passes the privileged mode
    of the configuration, with external credentials under external
    authentication and database credentials otherwise; and the username
    and password attributes are set only without external authentication,
    to the username and the password of the configuration. *)
Theorem Open_session_call_arguments :
  forall (P : Package) (World : Type) (L : Layer World)
         (oci8Driver : OCI8DriverStruct) (s : string) (dsn : DSN.t)
         (st st' : state World) (res : result Conn.t) (new : list event),
    Parse.ParseDSN s = Ok dsn ->
    Driver.Open oci8Driver s st = (res, st') ->
    trace st' = (trace st ++ new)%list ->
    (forall srvh errh dblink dblen mode,
        In (ServerAttach srvh errh dblink dblen mode) new ->
        mode = OCI_DEFAULT
        /\ (dblink, dblen)
           = if DSN.externalauthentication dsn then (None, 0)
             else (Some (DSN.Connect dsn), ub4 (len (DSN.Connect dsn))))
    /\ (forall svch errh usrh cred mode,
           In (SessionBegin svch errh usrh cred mode) new ->
           mode = DSN.operationMode dsn
           /\ cred = if DSN.externalauthentication dsn then OCI_CRED_EXT
                     else OCI_CRED_RDBMS)
    /\ (forall target ttype value size attr errh status,
           In (AttrSet target ttype value size attr errh status) new ->
           (attr = OCI_ATTR_USERNAME ->
            DSN.externalauthentication dsn = false
            /\ value = VText (DSN.Username dsn)
            /\ size = ub4 (len (DSN.Username dsn)))
           /\ (attr = OCI_ATTR_PASSWORD ->
               DSN.externalauthentication dsn = false
               /\ value = VText (DSN.Password dsn)
               /\ size = ub4 (len (DSN.Password dsn)))).
Proof.
  intros P World L oci8Driver s dsn st st' res new Hparse Hrun Htrace.
  exact (LadderFacts.Open_session_arguments _ _ _ _ _ _ _ Hparse Hrun Htrace).
Qed.

Lemma Open_session_call_arguments_witness :
  (OCI_SYSOPER = DSN.operationMode (Samples.cfg "" "" "" OCI_SYSOPER true)
   /\ OCI_CRED_EXT
      = if DSN.externalauthentication (Samples.cfg "" "" "" OCI_SYSOPER true)
        then OCI_CRED_EXT else OCI_CRED_RDBMS)
  /\ (OCI_SYSDBA
      = DSN.operationMode (Samples.cfg "u" "p" "host" OCI_SYSDBA false)
      /\ OCI_CRED_RDBMS
         = if DSN.externalauthentication
                (Samples.cfg "u" "p" "host" OCI_SYSDBA false)
           then OCI_CRED_EXT else OCI_CRED_RDBMS).
Proof.
  split.
  - assert (Hparse : Parse.ParseDSN (pkg := SpecHelpers.package true)
                       "oracle://@?as=sysoper"
                     = Ok (Samples.cfg "" "" "" OCI_SYSOPER true))
      by (vm_compute; reflexivity).
    apply (proj1 (proj2 (Open_session_call_arguments
                           (SpecHelpers.package true) Fake.world Fake.layer
                           Samples.driver "oracle://@?as=sysoper" _
                           (Fake.start []) (snd Runs.external)
                           (fst Runs.external) (trace (snd Runs.external))
                           Hparse (surjective_pairing _) eq_refl))
             4099 4097 4100 OCI_CRED_EXT OCI_SYSOPER).
    vm_compute. do 7 right. left. reflexivity.
  - assert (Hparse : Parse.ParseDSN (pkg := SpecHelpers.package true)
                       "u/p@host?as=sysdba"
                     = Ok (Samples.cfg "u" "p" "host" OCI_SYSDBA false))
      by (vm_compute; reflexivity).
    apply (proj1 (proj2 (Open_session_call_arguments
                           (SpecHelpers.package true) Fake.world Fake.layer
                           Samples.driver "u/p@host?as=sysdba" _
                           (Fake.start []) (snd Runs.sysdba)
                           (fst Runs.sysdba) (trace (snd Runs.sysdba))
                           Hparse (surjective_pairing _) eq_refl))
             4099 4097 4100 OCI_CRED_RDBMS OCI_SYSDBA).
    vm_compute. do 9 right. left. reflexivity.
Defined.

(** X16.  In the direct-logon branch the only native calls of [Open] are
    the creation of the environment, the allocation of the error handle,
    the combined logon, the reading of a diagnostic and the release of
    handles: there is no server attach, no attribute set and no session
    begin, so the privileged mode of the configuration is passed to no
    native call. *)
Theorem Open_direct_branch_calls :
  forall (P : Package) (World : Type) (L : Layer World)
         (oci8Driver : OCI8DriverStruct) (s : string)
         (st st' : state World) (res : result Conn.t) (new : list event),
    useOCISessionBegin = false ->
    Driver.Open oci8Driver s st = (res, st') ->
    trace st' = (trace st ++ new)%list ->
    forall ev, In ev new -> Ladder.direct_call ev = true.
Proof.
  intros P World L oci8Driver s st st' res new Hswitch Hrun Htrace.
  exact (LadderFacts.Open_direct_calls _ _ _ _ _ _ Hswitch Hrun Htrace).
Qed.

Lemma Open_direct_branch_calls_witness :
  Ladder.direct_call
    (Logon 4096 4097 "u" 1 "p" 1 "host" 4 {| rv := 1; ptr := 4098 |})
  = true.
Proof.
  apply (Open_direct_branch_calls (SpecHelpers.package false) Fake.world
           Fake.layer Samples.driver "u/p@host?as=sysdba"
           (Fake.start [0; 0; 1]) (snd Runs.direct) (fst Runs.direct)
           (trace (snd Runs.direct))).
  - reflexivity.
  - apply surjective_pairing.
  - reflexivity.
  - vm_compute. do 2 right. left. reflexivity.
Defined.

(** X17.  The statuses that server attach and session begin report do not
    matter to [Open]: against a native layer that reports success for
    both, with the same effect on the library, [Open] makes the same
    calls and returns the same result. *)
Theorem Open_ignores_attach_and_begin_status :
  forall (P : Package) (World : Type) (L : Layer World)
         (oci8Driver : OCI8DriverStruct) (s : string) (st : state World),
    Driver.Open (native := Ladder.silence L) oci8Driver s st
    = Driver.Open (native := L) oci8Driver s st.
Proof.
  intros P World L oci8Driver s st. apply LadderFacts.Open_silence.
Qed.

(** X18.  [Open] returns a connection only when none of the calls whose
    status it tests was rejected, and then it has read no diagnostic and
    released nothing.  When it fails after parsing, exactly one call was
    rejected: every call before it was accepted, and after it [Open] only
    reads the diagnostic and releases handles; nothing is retried. *)
Theorem Open_stops_at_first_rejection :
  forall (P : Package) (World : Type) (L : Layer World)
         (oci8Driver : OCI8DriverStruct) (s : string)
         (st st' : state World) (res : result Conn.t) (new : list event),
    Driver.Open oci8Driver s st = (res, st') ->
    trace st' = (trace st ++ new)%list ->
    (is_ok res = true ->
     forall ev, In ev new ->
                Ladder.rejected ev = false /\ Ladder.cleanup ev = false)
    /\ (is_ok res = false -> is_ok (Parse.ParseDSN s) = true ->
        exists pre ev post,
          new = (pre ++ ev :: post)%list
          /\ Ladder.rejected ev = true
          /\ (forall x, In x pre ->
                        Ladder.rejected x = false /\ Ladder.cleanup x = false)
          /\ (forall x, In x post -> Ladder.cleanup x = true)).
Proof.
  intros P World L oci8Driver s st st' res new Hrun Htrace.
  exact (LadderFacts.Open_first_rejection _ _ _ _ _ _ Hrun Htrace).
Qed.

Lemma Open_stops_at_first_rejection_witness :
  exists pre ev post,
    trace (snd Runs.no_session_handle) = (pre ++ ev :: post)%list
    /\ Ladder.rejected ev = true
    /\ (forall x, In x pre ->
                  Ladder.rejected x = false /\ Ladder.cleanup x = false)
    /\ (forall x, In x post -> Ladder.cleanup x = true).
Proof.
  apply (proj2 (Open_stops_at_first_rejection (SpecHelpers.package true)
                  Fake.world Fake.layer Samples.driver "u/p@host?as=sysdba"
                  (Fake.start [0; 0; 0; 0; 0; 0; -1])
                  (snd Runs.no_session_handle) (fst Runs.no_session_handle)
                  (trace (snd Runs.no_session_handle))
                  (surjective_pairing _) eq_refl)).
  - vm_compute. reflexivity.
  - vm_compute. reflexivity.
Defined.

(** ** More on Commit, Rollback and placeholders *)

(** X19.  [Commit] and [Rollback] touch one connection only.  When the
    transaction refers to a live connection, that connection keeps its
    handles and settings and only its in-transaction flag is written, and
    every other connection on the heap is left as it was.  When the
    reference is nil, the call panics before anything is written and
    before any native call. *)
Theorem Commit_Rollback_frame :
  forall (World : Type) (L : Layer World) (tx : OCI8Tx) (st : state World),
    (forall res st',
        Driver.Commit tx st = (res, st') ->
        match heap st !! tx_conn tx with
        | Some c =>
            heap st' !! tx_conn tx = Some (Conn.set_inTransaction false c)
            /\ forall a, a <> tx_conn tx -> heap st' !! a = heap st !! a
        | None => res = Panic /\ st' = st
        end)
    /\ (forall res st',
           Driver.Rollback tx st = (res, st') ->
           match heap st !! tx_conn tx with
           | Some c =>
               heap st' !! tx_conn tx = Some (Conn.set_inTransaction false c)
               /\ forall a, a <> tx_conn tx -> heap st' !! a = heap st !! a
           | None => res = Panic /\ st' = st
           end).
Proof.
  intros World L tx st. split; intros res st' Hrun;
    destruct (heap st !! tx_conn tx) as [c |] eqn:Hconn.
  - destruct (DriverFacts.Commit_steps _ _ _ _ _ Hconn Hrun) as [-> _].
    split; [apply lookup_insert_eq |].
    intros a Ha. apply lookup_insert_ne. congruence.
  - unfold Driver.Commit, Driver.setInTransaction, mbind, M_bind in Hrun.
    rewrite Hconn in Hrun. injection Hrun as <- <-. auto.
  - destruct (DriverFacts.Rollback_steps _ _ _ _ _ Hconn Hrun) as [-> _].
    split; [apply lookup_insert_eq |].
    intros a Ha. apply lookup_insert_ne. congruence.
  - unfold Driver.Rollback, Driver.setInTransaction, mbind, M_bind in Hrun.
    rewrite Hconn in Hrun. injection Hrun as <- <-. auto.
Qed.

Lemma Commit_Rollback_frame_witness :
  match heap (Samples.in_transaction [-1]) !! tx_conn Samples.tx with
  | Some c =>
      heap (snd (Driver.Commit (native := Fake.layer) Samples.tx
                   (Samples.in_transaction [-1]))) !! tx_conn Samples.tx
      = Some (Conn.set_inTransaction false c)
      /\ forall a, a <> tx_conn Samples.tx ->
           heap (snd (Driver.Commit (native := Fake.layer) Samples.tx
                        (Samples.in_transaction [-1]))) !! a
           = heap (Samples.in_transaction [-1]) !! a
  | None =>
      fst (Driver.Commit (native := Fake.layer) Samples.tx
             (Samples.in_transaction [-1])) = Panic
      /\ snd (Driver.Commit (native := Fake.layer) Samples.tx
                (Samples.in_transaction [-1]))
         = Samples.in_transaction [-1]
  end.
Proof.
  apply (proj1 (Commit_Rollback_frame Fake.world Fake.layer Samples.tx
                  (Samples.in_transaction [-1]))).
  apply surjective_pairing.
Defined.

Lemma replace_plain (b : string) (n : Z) :
  Placeholders.has_marker b = false ->
  Placeholders.ReplaceAllStringFunc Placeholders.phre b
    Placeholders.next_marker n = (b, n).
Proof.
  intros Hb.
  pose proof (PlaceholdersFacts.replace_unmarked b "" n Hb) as Hrun.
  assert (Hnil : forall s : string, s ++ "" = s).
  { induction s as [|c s IH]; [reflexivity |].
    rewrite PlaceholdersFacts.append_cons. now rewrite IH. }
  rewrite Hnil in Hrun. simpl in Hrun. rewrite Hnil in Hrun. exact Hrun.
Qed.

Lemma replace_unmarked_suffix (a b : string) (n : Z) :
  Placeholders.has_marker b = false ->
  Placeholders.ReplaceAllStringFunc Placeholders.phre (a ++ b)
    Placeholders.next_marker n
  = (fst (Placeholders.ReplaceAllStringFunc Placeholders.phre a
            Placeholders.next_marker n) ++ b,
     snd (Placeholders.ReplaceAllStringFunc Placeholders.phre a
            Placeholders.next_marker n)).
Proof.
  intros Hb. revert n. induction a as [|c a IH]; intros n.
  - rewrite PlaceholdersFacts.append_nil. simpl.
    rewrite PlaceholdersFacts.append_nil. apply replace_plain, Hb.
  - rewrite PlaceholdersFacts.append_cons. simpl.
    destruct (Ascii.eqb c "?").
    + rewrite IH.
      destruct (Placeholders.ReplaceAllStringFunc Placeholders.phre a
                  Placeholders.next_marker (wrap_int (n + 1))).
      cbn [fst snd]. f_equal. symmetry.
      apply PlaceholdersFacts.append_assoc.
    + rewrite IH.
      destruct (Placeholders.ReplaceAllStringFunc Placeholders.phre a
                  Placeholders.next_marker n).
      cbn [fst snd]. now rewrite PlaceholdersFacts.append_cons.
Qed.

(** X20.  Text without a question mark around a statement is kept as it
    is and does not shift the numbering: [placeholders] of a marker-free
    text followed by a statement is that text followed by [placeholders]
    of the statement, and likewise for a marker-free text after the
    statement.  In particular a text without any question mark is
    returned unchanged. *)
Theorem placeholders_keeps_unmarked_text :
  forall a b : string,
    (Placeholders.has_marker a = false ->
     Placeholders.placeholders (a ++ b) = a ++ Placeholders.placeholders b)
    /\ (Placeholders.has_marker b = false ->
        Placeholders.placeholders (a ++ b)
        = Placeholders.placeholders a ++ b)
    /\ (Placeholders.has_marker a = false ->
        Placeholders.placeholders a = a).
Proof.
  intros a b. unfold Placeholders.placeholders. split; [| split].
  - intros Ha. now rewrite (PlaceholdersFacts.replace_unmarked _ _ _ Ha).
  - intros Hb. now rewrite (replace_unmarked_suffix _ _ _ Hb).
  - intros Ha. now rewrite (replace_plain _ _ Ha).
Qed.

Lemma placeholders_keeps_unmarked_text_witness :
  Placeholders.placeholders
    ("/* audit */ " ++ "DELETE FROM t WHERE a=? AND b=?")
  = "/* audit */ "
    ++ Placeholders.placeholders "DELETE FROM t WHERE a=? AND b=?".
Proof.
  apply (proj1 (placeholders_keeps_unmarked_text "/* audit */ "
                  "DELETE FROM t WHERE a=? AND b=?")).
  reflexivity.
Defined.

(** X21.  The failures that [ParseDSN] tests end the parse with that very
    error, in the order of the source: the empty input first ("empty
    dsn"); then, for an input with an authority part, a failure of
    [parseAuthority], whatever the host part is; then a failure to decode
    the host part, once the authority part is absent or parsed. *)
Theorem ParseDSN_checked_failures_abort :
  forall (P : Package) (s e : string),
    Parse.ParseDSN "" = Err "empty dsn"
    /\ (s <> "" ->
        fst (Parse.dsnAuthority s) <> "" ->
        parseAuthority (fst (Parse.dsnAuthority s)) = Err e ->
        Parse.ParseDSN s = Err e)
    /\ (s <> "" ->
        fst (Parse.dsnAuthority s) = ""
        \/ is_ok (parseAuthority (fst (Parse.dsnAuthority s))) = true ->
        unescape (fst (Parse.dsnHostParams s)) encodeHost = Err e ->
        Parse.ParseDSN s = Err e).
Proof.
  intros P s e. split; [reflexivity |].
  split; intros Hs Ha Hfail; unfold Parse.ParseDSN;
    apply String.eqb_neq in Hs; rewrite Hs;
    destruct (Parse.dsnAuthority s) as [authority rest0];
    destruct (Parse.dsnHostParams s) as [host params];
    destruct (Parse.dsnQuery s) as [qp qerr]; simpl in *.
  - apply String.eqb_neq in Ha. rewrite Ha, Hfail. reflexivity.
  - destruct (String.eqb_spec authority "") as [-> | Hne].
    + simpl. rewrite Hfail. reflexivity.
    + destruct Ha as [Ha | Ha]; [contradiction |].
      destruct (parseAuthority authority) as [[u p] | |];
        try discriminate Ha.
      simpl. rewrite Hfail. reflexivity.
Qed.

Lemma ParseDSN_checked_failures_abort_witness :
  Parse.ParseDSN (pkg := Samples.session_package) "u%zz/p@ho%st?as=sysdba"
  = Err "invalid URL escape"
  /\ Parse.ParseDSN (pkg := Samples.session_package) "u/p@ho%st?as=sysdba"
     = Err "invalid URL escape".
Proof.
  split.
  - apply (proj1 (proj2 (ParseDSN_checked_failures_abort
                           Samples.session_package
                           "u%zz/p@ho%st?as=sysdba" "invalid URL escape"))).
    + discriminate.
    + vm_compute. discriminate.
    + vm_compute. reflexivity.
  - apply (proj2 (proj2 (ParseDSN_checked_failures_abort
                           Samples.session_package
                           "u/p@ho%st?as=sysdba" "invalid URL escape"))).
    + discriminate.
    + right. vm_compute. reflexivity.
    + vm_compute. reflexivity.
Defined.
